(** * SQLDispatcher._read: partitioned SQL ingestion

    A shallow embedding of [modin/core/io/sql/sql_dispatcher.py].  The
    dispatcher is one classmethod, [SQLDispatcher._read]; its collaborators
    (pandas.read_sql, the task substrate's deploy/materialize, the
    single-worker fallback, the frame and query-compiler constructors) are
    not part of the file and are taken as oracles of an environment record.
    Effects are an error monad over a chronological trace of the calls made
    to those collaborators. *)

From Stdlib Require Import ZArith List FinFun String Lia.
From Stdlib Require Import QArith Qround DecimalString.
From Stdlib Require Import Floats.SpecFloat.
Import ListNotations.

Open Scope string_scope.
Open Scope Z_scope.
Open Scope list_scope.

(** ** Python built-ins used by the source *)

Module Py.

(** [str(n)] for an int. *)
Definition str (n : Z) : string := NilZero.string_of_int (Z.to_int n).

(** [range(n)]: empty when [n <= 0]. *)
Definition range (n : Z) : list Z := map Z.of_nat (seq 0 (Z.to_nat n)).

(** [l[:-2]]: everything but the last two elements; empty when [l] is
    shorter than two. *)
Definition slice_to_neg2 {A} (l : list A) : list A :=
  firstn (List.length l - 2)%nat l.

(** [l[-2]] and [l[-1]]: [None] stands for IndexError. *)
Definition index_neg2 {A} (l : list A) : option A :=
  if (List.length l <? 2)%nat then None
  else nth_error l (List.length l - 2)%nat.

Definition index_neg1 {A} (l : list A) : option A :=
  if (List.length l <? 1)%nat then None
  else nth_error l (List.length l - 1)%nat.

(** [sum(l)] over ints, starting from 0. *)
Definition sum (l : list Z) : Z := fold_left Z.add l 0.

(** [math.ceil(a / b)] as line 93 computes it on the row count, a numpy
    int64: both operands become float64 (rounding to nearest, ties to
    even), the quotient is the IEEE 754 binary64 one, and [math.ceil]
    raises OverflowError on an infinity and ValueError on a NaN. *)
Inductive CeilError :=
| CeilOverflowError
| CeilValueError.

Definition float64 (n : Z) : spec_float := binary_normalize 53 1024 n 0 false.

Definition math_ceil (x : spec_float) : CeilError + Z :=
  match x with
  | S754_zero _ => inr 0
  | S754_infinity _ => inl CeilOverflowError
  | S754_nan => inl CeilValueError
  | S754_finite s m e =>
      let num := if s then Z.neg m else Z.pos m in
      inr (if 0 <=? e then num * 2 ^ e else - ((- num) / 2 ^ (- e)))
  end.

Definition ceil_truediv_f64 (a b : Z) : CeilError + Z :=
  math_ceil (SFdiv 53 1024 (float64 a) (float64 b)).

(** The ceiling of the exact quotient [a / b], for [b <> 0].  This is what
    the dispatcher is run with.  It is the value of [ceil_truediv_f64]
    when both operands are exact as floats and the rounding of the
    quotient cannot pass an integer, which is the case for
    [0 <= a <= 2^53] and [1 <= b <= 2^53]; above that the float may be
    smaller.  The theorems that rest on the value of the limit, beyond
    its being the same everywhere in a run, state these bounds, or a
    domain in which the float quotient is 0 or lies in (0, 1]. *)
Definition ceil_truediv (a b : Z) : Z :=
  Qceiling (Qdiv (inject_Z a) (inject_Z b)).

(** [key in d] for a keyword dictionary kept as an association list. *)
Definition has_key {A} (k : string) (d : list (string * A)) : bool :=
  existsb (fun kv => String.eqb (fst kv) k) d.

End Py.

(** ** Data model *)

(** [con.info] of a psycopg2 connection. *)
Record ConnInfo := {
  user : string;
  password : string;
  host : string;
  port : Z;
  dbname : string
}.

(** The [con] argument: a connection string, a psycopg2 connection (known
    by its [info]) or any other object (known by the text of its type). *)
Inductive Con :=
| ConStr (url : string)
| ConPg (info : ConnInfo)
| ConOther (type_repr : string).

(** The [index_col] argument when it is not [None]: one column or a list. *)
Inductive IndexCol :=
| Col (name : string)
| Cols (names : list string).

Inductive Exn (ExtErr : Type) :=
| IndexError
| TypeError
| ValueError
| OverflowError
| Propagated (e : ExtErr).
Arguments IndexError {ExtErr}.
Arguments TypeError {ExtErr}.
Arguments ValueError {ExtErr}.
Arguments OverflowError {ExtErr}.
Arguments Propagated {ExtErr} e.

Inductive Outcome (ExtErr A : Type) :=
| Returned (a : A)
| Raised (e : Exn ExtErr).
Arguments Returned {ExtErr A} a.
Arguments Raised {ExtErr A} e.

Section Dispatcher.

(** Opaque values of the collaborators: task handles, index values,
    keyword-argument values, data frames, their column labels, the
    fallback's result, and the errors the collaborators raise. *)
Context {Handle Val KwVal DataFrame Columns SW ExtErr : Type}.

Definition Kwargs := list (string * KwVal).

(** The keyword dictionary handed to [cls.deploy] for [cls.parse]. *)
Record TaskArgs := {
  num_splits : Z;
  sql : string;
  con : string;
  index_col : option IndexCol;
  kwargs : Kwargs
}.

(** Calls made to the collaborators, in the order they happen. *)
Inductive Event :=
| EvWarn (msg : string)
| EvSingleWorkerRead (sql : string) (con : Con)
    (index_col : option IndexCol) (kwargs : Kwargs)
| EvReadSql (query con : string) (index_col : option IndexCol)
| EvDeploy (num_returns : Z) (args : TaskArgs)
| EvMaterialize (handles : list Handle).

Definition Trace := list Event.

(** What a handle resolves to: [parse] returns the index of its chunk, or
    only its length when no index column was asked for. *)
Inductive Materialized :=
| MLen (n : Z)
| MIndex (values : list Val).

Inductive FramePartition :=
| frame_partition_cls (obj : Handle).

(** Elements of the Python lists the loop fills: a handle or a list of
    wrapped data blocks. *)
Inductive PyObj :=
| ObjHandle (h : Handle)
| ObjBlocks (row : list FramePartition).

Inductive Index :=
| RangeIndex (stop : Z)
| ValuesIndex (values : list Val) (names : option IndexCol).

(** [pandas.Index(lst)], and the index [i] carrying the names [names]. *)
Definition pandas_Index (lst : list Val) : Index := ValuesIndex lst None.

Definition with_names (names : IndexCol) (i : Index) : Index :=
  match i with
  | RangeIndex stop => RangeIndex stop
  | ValuesIndex values _ => ValuesIndex values (Some names)
  end.

(** The labels of a [RangeIndex(stop)]: [0, 1, ..., stop - 1]. *)
Definition range_labels (i : Index) : list Z :=
  match i with
  | RangeIndex stop => Py.range stop
  | ValuesIndex _ _ => []
  end.

(** The frame object: what it was constructed from and the axes on which
    [synchronize_labels] was called. *)
Record Frame := {
  frame_partitions : list (list FramePartition);
  frame_index : Index;
  frame_columns : Columns;
  frame_synchronized : list Z
}.

Definition frame_cls (parts : list (list FramePartition)) (idx : Index)
    (cols : Columns) : Frame :=
  {| frame_partitions := parts; frame_index := idx;
     frame_columns := cols; frame_synchronized := [] |}.

Definition synchronize_labels (axis : Z) (f : Frame) : Frame :=
  {| frame_partitions := frame_partitions f;
     frame_index := frame_index f;
     frame_columns := frame_columns f;
     frame_synchronized := frame_synchronized f ++ [axis] |}.

(** What [_read] returns: a query compiler over the assembled frame, or
    whatever [single_worker_read] returned. *)
Inductive QueryCompiler :=
| query_compiler_cls (frame : Frame)
| SingleWorker (result : SW).

(** The collaborators.  Each oracle sees the trace so far, so a result may
    depend on everything that happened before the call.  [nlevels lst] is
    the number of levels pandas gives an index built from the non-empty
    list [lst]: 1 for scalars, the width of the tuples for tuples. *)
Record Env := {
  pg_importable : bool;
  NPartitions_get : Z;
  read_sql : Trace -> string -> string -> option IndexCol ->
             ExtErr + DataFrame;
  squeeze : DataFrame -> Z;
  columns : DataFrame -> Columns;
  single_worker_read : Trace -> string -> Con -> option IndexCol ->
                       Kwargs -> ExtErr + SW;
  deploy : Trace -> Z -> TaskArgs -> list Handle;
  resolve : Trace -> Handle -> ExtErr + Materialized;
  nlevels : list Val -> nat
}.

(** ** The effect monad *)

Definition M (A : Type) := Trace -> Outcome ExtErr A * Trace.

Definition ret {A} (a : A) : M A := fun tr => (Returned a, tr).

Definition raise {A} (e : Exn ExtErr) : M A := fun tr => (Raised e, tr).

Definition bind {A B} (m : M A) (k : A -> M B) : M B :=
  fun tr =>
    match m tr with
    | (Returned a, tr') => k a tr'
    | (Raised e, tr') => (Raised e, tr')
    end.

(** Call a collaborator: the oracle answers from the trace before the
    call, and the call is appended to the trace. *)
Definition call {A} (ev : Event) (oracle : Trace -> ExtErr + A) : M A :=
  fun tr =>
    match oracle tr with
    | inl e => (Raised (Propagated e), tr ++ [ev])
    | inr a => (Returned a, tr ++ [ev])
    end.

Definition of_option {A} (e : Exn ExtErr) (o : option A) : M A :=
  match o with
  | Some a => ret a
  | None => raise e
  end.

End Dispatcher.

Arguments Kwargs : clear implicits.
Arguments TaskArgs : clear implicits.
Arguments Event : clear implicits.
Arguments Trace : clear implicits.
Arguments Materialized : clear implicits.
Arguments FramePartition : clear implicits.
Arguments PyObj : clear implicits.
Arguments Index : clear implicits.
Arguments Frame : clear implicits.
Arguments QueryCompiler : clear implicits.
Arguments Env : clear implicits.
Arguments M : clear implicits.

Declare Scope py_scope.
Delimit Scope py_scope with py.
Notation "x <- m ;; k" := (bind m (fun x => k))
  (at level 61, m at next level, right associativity) : py_scope.
Notation "m ;;; k" := (bind m (fun _ => k))
  (at level 61, right associativity) : py_scope.

(** ** The dispatcher *)

Section Read.

Context {Handle Val KwVal DataFrame Columns SW ExtErr : Type}.

Local Abbreviation kwargs_t := (Kwargs KwVal).
Local Abbreviation args_t := (TaskArgs KwVal).
Local Abbreviation event := (Event Handle KwVal).
Local Abbreviation trace := (Trace Handle KwVal).
Local Abbreviation partition := (FramePartition Handle).
Local Abbreviation pyobj := (PyObj Handle).
Local Abbreviation index := (Index Val).
Local Abbreviation frame := (Frame Handle Val Columns).
Local Abbreviation query_compiler := (QueryCompiler Handle Val Columns SW).
Local Abbreviation M' := (M Handle KwVal ExtErr).

Variable E : Env Handle Val KwVal DataFrame Columns SW ExtErr.

Local Open Scope py_scope.

(** *** Connection normalisation (lines 59-73) *)

(** ["postgresql+psycopg2://{}:{}@{}{}/{}".format(...)] *)
Definition connection_url (info : ConnInfo) : string :=
  ("postgresql+psycopg2://" ++ user info ++ ":" ++ password info ++ "@"
     ++ (if String.eqb (host info) "/tmp" then "" else host info)
     ++ (if String.eqb (host info) "/tmp" then ""
         else ":" ++ Py.str (port info))
     ++ "/" ++ dbname info)%string.

(** The [try: import psycopg2 ... except ImportError: pass] block. *)
Definition normalize_con (con : Con) : Con :=
  if pg_importable E then
    match con with
    | ConPg info => ConStr (connection_url info)
    | _ => con
    end
  else con.

(** [type(con)] as the warning prints it. *)
Definition type_of (con : Con) : string :=
  match con with
  | ConStr _ => "<class 'str'>"
  | ConPg _ => "<class 'psycopg2.extensions.connection'>"
  | ConOther t => t
  end.

Definition fallback_warning (con : Con) : string :=
  ("To use parallel implementation of `read_sql`, pass the sqlalchemy"
     ++ "connection string instead of " ++ type_of con ++ ".")%string.

(** *** Probing (lines 83-88) *)

Definition row_cnt_query (sql : string) : string :=
  ("SELECT COUNT(*) FROM (" ++ sql ++ ") as foo")%string.

Definition cols_names_query (sql : string) : string :=
  ("SELECT * FROM (" ++ sql ++ ") as foo LIMIT 0")%string.

Definition pandas_read_sql (query con : string)
    (index_col : option IndexCol) : M' DataFrame :=
  call (EvReadSql query con index_col)
       (fun tr => read_sql E tr query con index_col).

(** *** Planning and dispatch (lines 89-114) *)

(** [limit = math.ceil(row_cnt / num_partitions)].  Dividing the numpy row
    count by zero gives NaN for a zero count and an infinity otherwise, on
    which [math.ceil] raises ValueError and OverflowError. *)
Definition compute_limit (row_cnt num_partitions : Z) : M' Z :=
  if num_partitions =? 0 then
    if row_cnt =? 0 then raise ValueError else raise OverflowError
  else ret (Py.ceil_truediv row_cnt num_partitions).

Definition partition_query (sql : string) (limit offset : Z) : string :=
  ("SELECT * FROM (" ++ sql ++ ") as foo LIMIT " ++ Py.str limit
     ++ " OFFSET " ++ Py.str offset)%string.

(** [dict(num_splits=..., sql=..., con=..., index_col=..., **kwargs)]:
    a key of [kwargs] that repeats a named one is a TypeError.  Of the four
    names only [num_splits] can be a key of [kwargs]: [sql], [con] and
    [index_col] are parameters of [_read] itself. *)
Definition keyword_clash (kwargs : kwargs_t) : bool :=
  Py.has_key "num_splits" kwargs.

Definition task_args (num_partitions : Z) (query con : string)
    (index_col : option IndexCol) (kwargs : kwargs_t) : args_t :=
  {| num_splits := num_partitions; sql := query; con := con;
     index_col := index_col; kwargs := kwargs |}.

Definition deploy_kwargs (num_partitions : Z) (query con : string)
    (index_col : option IndexCol) (kwargs : kwargs_t) : M' args_t :=
  if keyword_clash kwargs then raise TypeError
  else ret (task_args num_partitions query con index_col kwargs).

(** [cls.deploy(cls.parse, num_returns, args)] *)
Definition cls_deploy (num_returns : Z) (args : args_t)
    : M' (list Handle) :=
  call (EvDeploy num_returns args)
       (fun tr => inr (deploy E tr num_returns args)).

(** The three lists the loop appends to. *)
Record Ids := {
  partition_ids : list (list partition);
  index_ids : list Handle;
  dtype_ids : list pyobj
}.

Definition no_ids : Ids :=
  {| partition_ids := []; index_ids := []; dtype_ids := [] |}.

(** [[cls.frame_partition_cls(obj) for obj in partition_id[:-2]]] *)
Definition data_row (partition_id : list Handle) : list partition :=
  map (@frame_partition_cls Handle) (Py.slice_to_neg2 partition_id).

(** One iteration of [for part in range(num_partitions)]. *)
Definition dispatch_part (sql con : string) (index_col : option IndexCol)
    (kwargs : kwargs_t) (num_partitions limit : Z) (ids : Ids) (part : Z)
    : M' Ids :=
  let offset := part * limit in
  let query := partition_query sql limit offset in
  args <- deploy_kwargs num_partitions query con index_col kwargs ;;
  partition_id <- cls_deploy (num_partitions + 2) args ;;
  let partition_ids' := partition_ids ids ++ [data_row partition_id] in
  index_id <- of_option IndexError (Py.index_neg2 partition_id) ;;
  let index_ids' := index_ids ids ++ [index_id] in
  row <- of_option IndexError (Py.index_neg1 partition_ids') ;;
  let dtype_ids' := dtype_ids ids ++ [ObjBlocks row] in
  ret {| partition_ids := partition_ids';
         index_ids := index_ids';
         dtype_ids := dtype_ids' |}.

Fixpoint for_each {A S} (body : S -> A -> M' S) (l : list A) (s : S)
    : M' S :=
  match l with
  | [] => ret s
  | x :: l' => s' <- body s x ;; for_each body l' s'
  end.

Definition dispatch (sql con : string) (index_col : option IndexCol)
    (kwargs : kwargs_t) (num_partitions limit : Z) : M' Ids :=
  for_each (dispatch_part sql con index_col kwargs num_partitions limit)
           (Py.range num_partitions) no_ids.

(** *** Index reconciliation (lines 115-122) *)

Fixpoint resolve_all (tr : trace) (handles : list Handle)
    : ExtErr + list (Materialized Val) :=
  match handles with
  | [] => inr []
  | h :: hs =>
      match resolve E tr h with
      | inl e => inl e
      | inr v =>
          match resolve_all tr hs with
          | inl e => inl e
          | inr vs => inr (v :: vs)
          end
      end
  end.

(** [cls.materialize(handles)]: blocks until every handle is resolved and
    returns the values in the order of the handles. *)
Definition cls_materialize (handles : list Handle)
    : M' (list (Materialized Val)) :=
  call (EvMaterialize handles) (fun tr => resolve_all tr handles).

(** [sum(index_lens)]; an element that is not an int is a TypeError. *)
Fixpoint index_lens_of (vs : list (Materialized Val)) : option (list Z) :=
  match vs with
  | [] => Some []
  | MLen n :: vs' => option_map (cons n) (index_lens_of vs')
  | MIndex _ :: _ => None
  end.

(** [[x for part_index in ... for x in part_index]]; an int is not
    iterable. *)
Fixpoint index_lst_of (vs : list (Materialized Val)) : option (list Val) :=
  match vs with
  | [] => Some []
  | MIndex part_index :: vs' =>
      option_map (app part_index) (index_lst_of vs')
  | MLen _ :: _ => None
  end.

(** The number of levels of an index; an index built from an empty list
    is flat. *)
Definition index_nlevels (i : index) : nat :=
  match i with
  | RangeIndex _ => 1
  | ValuesIndex [] _ => 1
  | ValuesIndex (x :: values) _ => nlevels E (x :: values)
  end.

(** [i.set_names(names)]: a single name is refused (TypeError) by an index
    of several levels, and a list of names (ValueError) by an index that
    has not as many levels as there are names. *)
Definition set_names (names : IndexCol) (i : index) : M' index :=
  match names with
  | Col _ =>
      if (index_nlevels i =? 1)%nat then ret (with_names names i)
      else raise TypeError
  | Cols l =>
      if (List.length l =? index_nlevels i)%nat
      then ret (with_names names i)
      else raise ValueError
  end.

Definition reconcile (index_col : option IndexCol)
    (index_ids : list Handle) : M' index :=
  match index_col with
  | None =>
      vs <- cls_materialize index_ids ;;
      index_lens <- of_option TypeError (index_lens_of vs) ;;
      ret (RangeIndex (Py.sum index_lens))
  | Some names =>
      vs <- cls_materialize index_ids ;;
      index_lst <- of_option TypeError (index_lst_of vs) ;;
      set_names names (pandas_Index index_lst)
  end.

(** *** [SQLDispatcher._read] *)

Definition _read (sql : string) (con : Con) (index_col : option IndexCol)
    (kwargs : kwargs_t) : M' query_compiler :=
  match normalize_con con with
  | ConStr con =>
      row_cnt_df <- pandas_read_sql (row_cnt_query sql) con None ;;
      let row_cnt := squeeze E row_cnt_df in
      cols_names_df <-
        pandas_read_sql (cols_names_query sql) con index_col ;;
      let cols_names := columns E cols_names_df in
      let num_partitions := NPartitions_get E in
      limit <- compute_limit row_cnt num_partitions ;;
      ids <- dispatch sql con index_col kwargs num_partitions limit ;;
      new_index <- reconcile index_col (index_ids ids) ;;
      let new_frame :=
        frame_cls (partition_ids ids) new_index cols_names in
      let new_frame := synchronize_labels 0 new_frame in
      ret (query_compiler_cls new_frame)
  | con =>
      call (EvWarn (fallback_warning con)) (fun _ => inr tt) ;;;
      result <- call (EvSingleWorkerRead sql con index_col kwargs)
                  (fun tr =>
                     single_worker_read E tr sql con index_col kwargs) ;;
      ret (SingleWorker result)
  end.

(** *** The run, seen from outside *)

(** The range plan the loop walks through: [(offset, limit)] per part. *)
Definition plan (row_cnt num_partitions : Z) : list (Z * Z) :=
  let limit := Py.ceil_truediv row_cnt num_partitions in
  map (fun part => (part * limit, limit)) (Py.range num_partitions).

(** The deploy call made for one range of the plan. *)
Definition deploy_event (sql con : string) (index_col : option IndexCol)
    (kwargs : kwargs_t) (num_partitions : Z) (rng : Z * Z) : event :=
  EvDeploy (num_partitions + 2)
    (task_args num_partitions (partition_query sql (snd rng) (fst rng))
       con index_col kwargs).

(** The handle sets the substrate returns for the ranges [rs], when the
    first of them is deployed after the trace [tr]. *)
Fixpoint handle_sets (sql con : string) (index_col : option IndexCol)
    (kwargs : kwargs_t) (num_partitions : Z) (tr : trace)
    (rs : list (Z * Z)) : list (list Handle) :=
  match rs with
  | [] => []
  | rng :: rs' =>
      deploy E tr (num_partitions + 2)
        (task_args num_partitions
           (partition_query sql (snd rng) (fst rng)) con index_col kwargs)
      :: handle_sets sql con index_col kwargs num_partitions
           (tr ++ [deploy_event sql con index_col kwargs
                     num_partitions rng]) rs'
  end.

(** The two probes, as events. *)
Definition row_cnt_probe (sql con : string) : event :=
  EvReadSql (row_cnt_query sql) con None.

Definition cols_names_probe (sql con : string)
    (index_col : option IndexCol) : event :=
  EvReadSql (cols_names_query sql) con index_col.

End Read.

(** The environment [E] with another substrate [deploy]. *)
Definition with_deploy {Handle Val KwVal DataFrame Columns SW ExtErr : Type}
    (E : Env Handle Val KwVal DataFrame Columns SW ExtErr)
    (d : Trace Handle KwVal -> Z -> TaskArgs KwVal -> list Handle)
    : Env Handle Val KwVal DataFrame Columns SW ExtErr :=
  {| pg_importable := pg_importable E;
     NPartitions_get := NPartitions_get E;
     read_sql := read_sql E;
     squeeze := squeeze E;
     columns := columns E;
     single_worker_read := single_worker_read E;
     deploy := d;
     resolve := resolve E;
     nlevels := nlevels E |}.

(** ** Describing a run *)

Section Observation.

Context {Handle Val KwVal DataFrame Columns SW ExtErr : Type}.

Local Abbreviation kwargs_t := (Kwargs KwVal).
Local Abbreviation trace := (Trace Handle KwVal).

Variable E : Env Handle Val KwVal DataFrame Columns SW ExtErr.

(** Handle sets from which an index handle can be taken. *)
Definition index_handles_of (sets : list (list Handle))
    (idx : list Handle) : Prop :=
  Forall2 (fun hs h => Py.index_neg2 hs = Some h) sets idx.

(** The trace once both probes have been answered, and once every range of
    the plan has been deployed. *)
Definition probed_trace (tr : trace) (sql c : string)
    (ic : option IndexCol) : trace :=
  (tr ++ [row_cnt_probe sql c]) ++ [cols_names_probe sql c ic].

Definition dispatched_trace (tr : trace) (sql c : string)
    (ic : option IndexCol) (kw : kwargs_t) (row_cnt : Z) : trace :=
  probed_trace tr sql c ic
    ++ map (deploy_event sql c ic kw (NPartitions_get E))
           (plan row_cnt (NPartitions_get E)).

(** The handle sets of a call, one per range of the plan. *)
Definition deployed_sets (tr : trace) (sql c : string)
    (ic : option IndexCol) (kw : kwargs_t) (row_cnt : Z)
    : list (list Handle) :=
  handle_sets E sql c ic kw (NPartitions_get E) (probed_trace tr sql c ic)
    (plan row_cnt (NPartitions_get E)).

(** A call that gets as far as index reconciliation: the connection is (or
    becomes) the string [c], the probes answer [df1] and [df2], there is at
    least one partition, no keyword clashes, and every handle set has an
    index handle, those being [idx]. *)
Definition reaches_reconcile (sql : string) (con : Con)
    (ic : option IndexCol) (kw : kwargs_t) (tr : trace) (c : string)
    (df1 df2 : DataFrame) (idx : list Handle) : Prop :=
  normalize_con E con = ConStr c /\
  read_sql E tr (row_cnt_query sql) c None = inr df1 /\
  read_sql E (tr ++ [row_cnt_probe sql c]) (cols_names_query sql) c ic
    = inr df2 /\
  1 <= NPartitions_get E /\
  keyword_clash kw = false /\
  index_handles_of (deployed_sets tr sql c ic kw (squeeze E df1)) idx.

(** What [_read] makes of the reconciled index. *)
Definition assemble (sets : list (list Handle)) (cols : Columns)
    (r : Outcome ExtErr (Index Val) * trace)
    : Outcome ExtErr (QueryCompiler Handle Val Columns SW) * trace :=
  match r with
  | (Returned new_index, tr') =>
      (Returned
         (query_compiler_cls
            (synchronize_labels 0
               (frame_cls (map data_row sets) new_index cols))), tr')
  | (Raised e, tr') => (Raised e, tr')
  end.


(** The handles [hs] resolve, after [tr], to the values [vs] wrapped by
    [wrap]. *)
Definition resolve_to {A} (wrap : A -> Materialized Val) (tr : trace)
    (hs : list Handle) (vs : list A) : Prop :=
  Forall2 (fun h v => resolve E tr h = inr (wrap v)) hs vs.

End Observation.


(** [isinstance(con, str)], and whether [con] is of a driver type the
    dispatcher knows how to turn into a string. *)
Definition is_string (con : Con) : bool :=
  match con with
  | ConStr _ => true
  | _ => false
  end.

Definition recognized {Handle Val KwVal DataFrame Columns SW ExtErr : Type}
    (E : Env Handle Val KwVal DataFrame Columns SW ExtErr) (con : Con)
    : bool :=
  pg_importable E && match con with
                     | ConPg _ => true
                     | _ => false
                     end.

(** The number of fetch tasks submitted in a trace, and the shape every
    submission is expected to have for [P] partitions. *)
Definition is_deploy {Handle KwVal : Type} (ev : Event Handle KwVal)
    : bool :=
  match ev with
  | EvDeploy _ _ => true
  | _ => false
  end.

Definition count_deploys {Handle KwVal : Type} (tr : Trace Handle KwVal)
    : nat :=
  List.length (filter is_deploy tr).

Definition deploy_shape {Handle KwVal : Type} (P : Z)
    (ev : Event Handle KwVal) : Prop :=
  match ev with
  | EvDeploy num_returns args => num_returns = P + 2 /\ num_splits args = P
  | _ => True
  end.

(** Every event a computation adds to the trace satisfies [Q]. *)
Definition emits {Handle KwVal ExtErr A : Type}
    (Q : Event Handle KwVal -> Prop) (m : M Handle KwVal ExtErr A) : Prop :=
  forall tr, exists evs, snd (m tr) = tr ++ evs /\ Forall Q evs.

(** Two handle sets that differ at most in their last element, the
    dtype-metadata handle. *)
Definition same_but_dtype {Handle : Type} (hs1 hs2 : list Handle) : Prop :=
  Py.slice_to_neg2 hs1 = Py.slice_to_neg2 hs2
  /\ Py.index_neg2 hs1 = Py.index_neg2 hs2.

(** The handle set [hs] with its last element, the dtype-metadata handle,
    replaced by [h]; and the environment [E] with the dtype handle of every
    handle set replaced by the one [dtype] chooses. *)
Definition replace_last {Handle : Type} (h : Handle) (hs : list Handle)
    : list Handle :=
  match hs with
  | [] => []
  | _ :: _ => removelast hs ++ [h]
  end.

Definition with_dtype_handles
    {Handle Val KwVal DataFrame Columns SW ExtErr : Type}
    (E : Env Handle Val KwVal DataFrame Columns SW ExtErr)
    (dtype : Trace Handle KwVal -> Z -> TaskArgs KwVal -> Handle)
    : Env Handle Val KwVal DataFrame Columns SW ExtErr :=
  with_deploy E
    (fun tr num_returns args =>
       replace_last (dtype tr num_returns args)
         (deploy E tr num_returns args)).

(** ** A concrete substrate

    An executable environment to run the dispatcher on: a handle is the
    pair (number of the deploy call that produced it, position in that
    call's handle set), the source answers a query from a fixed table of
    answers, and the handle in the index position of call [k] resolves to
    the [k]-th chunk.  Index values are integers, so every index is flat. *)

Module Scenario.

Definition Handle := (nat * nat)%type.
Definition DataFrame := (Z * list string)%type.

Definition env_t :=
  Env Handle Z string DataFrame (list string) string string.

Definition env (P : Z) (source : string -> string + DataFrame)
    (chunks : list (string + Materialized Z)) : env_t :=
  {| pg_importable := true;
     NPartitions_get := P;
     read_sql := fun _ query _ _ => source query;
     squeeze := fst;
     columns := snd;
     single_worker_read := fun _ sql _ _ _ => inr sql;
     deploy := fun tr num_returns _ =>
                 map (fun slot => (count_deploys tr, slot))
                     (seq 0 (Z.to_nat num_returns));
     resolve := fun _ h =>
                  match nth_error chunks (fst h) with
                  | Some r => r
                  | None => inl "unknown handle"
                  end;
     nlevels := fun _ => 1%nat |}.

(** A source with [row_cnt] rows and the columns [cols]. *)
Definition table (row_cnt : Z) (cols : list string)
    : string -> string + DataFrame :=
  fun query =>
    if String.prefix "SELECT COUNT(*)" query then inr (row_cnt, ["count"])
    else inr (0, cols).

(** A source that rejects every query, and one that answers the count
    but rejects the schema probe. *)
Definition unreachable : string -> string + DataFrame :=
  fun _ => inl "connection refused".

Definition no_schema (row_cnt : Z) : string -> string + DataFrame :=
  fun query =>
    if String.prefix "SELECT COUNT(*)" query then inr (row_cnt, ["count"])
    else inl "permission denied".

(** The queries of the fetch tasks submitted in a trace. *)
Definition deployed_queries (tr : Trace Handle string) : list string :=
  flat_map (fun ev => match ev with
                      | EvDeploy _ args => [sql args]
                      | _ => []
                      end) tr.

(** Connections to try the dispatcher on. *)
Definition sqlite_con : Con := ConOther "<class 'sqlite3.Connection'>".

Definition socket_info : ConnInfo :=
  {| user := "u"; password := "p"; host := "/tmp"; port := 5432;
     dbname := "db" |}.

Definition tcp_info : ConnInfo :=
  {| user := "u"; password := "p"; host := "pg.local"; port := 5432;
     dbname := "db" |}.

Definition run {A} (m : M Handle string string A)
    : Outcome string A * Trace Handle string :=
  m [].

End Scenario.

(** ** Further observations on a run *)

(** Whether the row at position [i] of the result (counted from 0) is one
    of the rows [LIMIT limit OFFSET offset] asks for. *)
Definition in_range (rng : Z * Z) (i : Z) : bool :=
  (fst rng <=? i) && (i <? fst rng + snd rng).

(** A fetch task for some range of the query [sql], deployed for [P]
    partitions with the caller's connection string, index column(s) and
    keyword arguments. *)
Definition is_fetch_task {Handle KwVal : Type} (sql c : string)
    (ic : option IndexCol) (kw : Kwargs KwVal) (P : Z)
    (ev : Event Handle KwVal) : Prop :=
  exists rng, ev = deploy_event sql c ic kw P rng.

(** ** Facts about the Python built-ins *)

Module PyFacts.

Lemma ceil_truediv_div (a b : Z) :
  Py.ceil_truediv a b = - ((- a) / b).
Proof.
  unfold Py.ceil_truediv, Qceiling.
  f_equal.
  rewrite (Zdiv_Qdiv (- a) b).
  apply Qfloor_comp.
  rewrite inject_Z_opp.
  unfold Qdiv.
  ring.
Qed.

(** The ceiling is the least integer whose multiple reaches [a]. *)
Lemma ceil_truediv_spec (a b : Z) :
  0 < b ->
  b * (Py.ceil_truediv a b - 1) < a <= b * Py.ceil_truediv a b.
Proof.
  intros Hb.
  rewrite ceil_truediv_div.
  pose proof (Z.div_mod (- a) b ltac:(lia)) as Hdm.
  pose proof (Z.mod_pos_bound (- a) b Hb) as Hm.
  nia.
Qed.

Lemma ceil_truediv_nonneg (a b : Z) :
  0 < b -> 0 <= a -> 0 <= Py.ceil_truediv a b.
Proof.
  intros Hb Ha.
  pose proof (ceil_truediv_spec a b Hb).
  nia.
Qed.


Lemma range_length (n : Z) : List.length (Py.range n) = Z.to_nat n.
Proof.
  unfold Py.range.
  now rewrite length_map, length_seq.
Qed.

Lemma range_nth_error (n : Z) (k : nat) :
  (k < Z.to_nat n)%nat -> nth_error (Py.range n) k = Some (Z.of_nat k).
Proof.
  intros Hk.
  unfold Py.range.
  rewrite nth_error_map, nth_error_seq.
  destruct (Nat.ltb_spec k (Z.to_nat n)); [reflexivity | lia].
Qed.

Lemma range_NoDup (n : Z) : NoDup (Py.range n).
Proof.
  unfold Py.range.
  apply Injective_map_NoDup.
  - intros x y Hxy. lia.
  - apply seq_NoDup.
Qed.

Lemma range_In (n i : Z) : In i (Py.range n) <-> 0 <= i < n.
Proof.
  unfold Py.range.
  rewrite in_map_iff.
  split.
  - intros [k [<- Hk]]. apply in_seq in Hk. lia.
  - intros Hi. exists (Z.to_nat i). split; [lia | apply in_seq; lia].
Qed.

Lemma sum_from (l : list Z) (acc : Z) :
  fold_left Z.add l acc = acc + Py.sum l.
Proof.
  unfold Py.sum.
  revert acc.
  induction l as [| x l IH]; intros acc; simpl.
  - lia.
  - rewrite (IH (acc + x)), (IH x). lia.
Qed.

Lemma sum_cons (x : Z) (l : list Z) : Py.sum (x :: l) = x + Py.sum l.
Proof.
  unfold Py.sum at 1. simpl. apply sum_from.
Qed.

Lemma sum_repeat (x : Z) (n : nat) :
  Py.sum (repeat x n) = Z.of_nat n * x.
Proof.
  induction n as [| n IH].
  - reflexivity.
  - cbn [repeat]. rewrite sum_cons, IH. lia.
Qed.

Lemma index_neg2_Some {A} (l : list A) :
  (2 <= List.length l)%nat -> exists x, Py.index_neg2 l = Some x.
Proof.
  intros Hl.
  unfold Py.index_neg2.
  destruct (Nat.ltb_spec (List.length l) 2); [lia |].
  destruct (nth_error l (List.length l - 2)) eqn:Hn; [eauto |].
  apply nth_error_None in Hn. lia.
Qed.

Lemma index_neg1_snoc {A} (l : list A) (x : A) :
  Py.index_neg1 (l ++ [x]) = Some x.
Proof.
  unfold Py.index_neg1.
  rewrite length_app. simpl.
  destruct (Nat.ltb_spec (List.length l + 1) 1); [lia |].
  rewrite nth_error_app2 by lia.
  replace (List.length l + 1 - 1 - List.length l)%nat with 0%nat by lia.
  reflexivity.
Qed.

(** The float64 limit of line 93 and the exact one agree at the edges of
    the range [0 .. 2^53]. *)
Lemma ceil_truediv_f64_at_the_bounds :
  Forall (fun ab => Py.ceil_truediv_f64 (fst ab) (snd ab)
                    = inr (Py.ceil_truediv (fst ab) (snd ab)))
    [(0, 1); (0, 2 ^ 53); (1, 2 ^ 53); (10, 3); (2 ^ 53, 1); (2 ^ 53, 3);
     (2 ^ 53, 2 ^ 53); (2 ^ 53 - 1, 2 ^ 53); (2 ^ 53, 2 ^ 53 - 1);
     (2 ^ 53 - 1, 2 ^ 26 + 1); (2 ^ 53 - 2, 2 ^ 27 - 1); (2 ^ 52 + 1, 2 ^ 52)].
Proof.
  repeat constructor.
Qed.

End PyFacts.

(** ** Running the dispatcher *)

Section RunFacts.

Context {Handle Val KwVal DataFrame Columns SW ExtErr : Type}.

Local Abbreviation kwargs_t := (Kwargs KwVal).
Local Abbreviation event := (Event Handle KwVal).
Local Abbreviation trace := (Trace Handle KwVal).
Local Abbreviation M' := (M Handle KwVal ExtErr).
Local Abbreviation env_t := (Env Handle Val KwVal DataFrame Columns SW ExtErr).

Variable E : env_t.

Lemma bind_returned {A B} (m : M' A) (k : A -> M' B) tr a tr' :
  m tr = (Returned a, tr') -> bind m k tr = k a tr'.
Proof.
  intros Hm. unfold bind. now rewrite Hm.
Qed.

Lemma bind_raised {A B} (m : M' A) (k : A -> M' B) tr e tr' :
  m tr = (Raised e, tr') -> bind m k tr = (Raised e, tr').
Proof.
  intros Hm. unfold bind. now rewrite Hm.
Qed.

Lemma index_handles_exist (sets : list (list Handle)) :
  Forall (fun hs => (2 <= List.length hs)%nat) sets ->
  exists idx, index_handles_of sets idx.
Proof.
  induction 1 as [| hs sets Hhs _ [idx IH]].
  - exists []. constructor.
  - destruct (PyFacts.index_neg2_Some hs Hhs) as [h Hh].
    exists (h :: idx). now constructor.
Qed.

Lemma dispatch_part_run sql c ic kw P limit ids part tr h :
  keyword_clash kw = false ->
  Py.index_neg2
    (deploy E tr (P + 2)
       (task_args P (partition_query sql limit (part * limit)) c ic kw))
  = Some h ->
  dispatch_part E sql c ic kw P limit ids part tr =
  (let hs := deploy E tr (P + 2)
               (task_args P (partition_query sql limit (part * limit))
                  c ic kw) in
   (Returned {| partition_ids := partition_ids ids ++ [data_row hs];
                index_ids := index_ids ids ++ [h];
                dtype_ids := dtype_ids ids ++ [ObjBlocks (data_row hs)] |},
    tr ++ [deploy_event sql c ic kw P (part * limit, limit)])).
Proof.
  intros Hkw Hh.
  unfold dispatch_part, deploy_kwargs, cls_deploy, call, bind, ret.
  rewrite Hkw. cbn zeta. rewrite Hh. cbn [of_option ret].
  rewrite PyFacts.index_neg1_snoc. reflexivity.
Qed.

(** The loop over the parts [parts], started with the lists [ids] after
    the trace [tr]. *)
Lemma for_each_dispatch sql c ic kw P limit :
  keyword_clash kw = false ->
  forall parts tr ids idx,
    let rs := map (fun part => (part * limit, limit)) parts in
    let sets := handle_sets E sql c ic kw P tr rs in
    index_handles_of sets idx ->
    for_each (dispatch_part E sql c ic kw P limit) parts ids tr =
    (Returned
       {| partition_ids := partition_ids ids ++ map data_row sets;
          index_ids := index_ids ids ++ idx;
          dtype_ids :=
            dtype_ids ids ++ map (fun hs => ObjBlocks (data_row hs)) sets |},
     tr ++ map (deploy_event sql c ic kw P) rs).
Proof.
  intros Hkw parts.
  induction parts as [| part parts IH]; intros tr ids idx rs sets Hidx.
  - subst rs sets. cbn in *. inversion Hidx; subst.
    rewrite !app_nil_r. destruct ids; reflexivity.
  - subst rs sets. cbn [map handle_sets] in *.
    inversion Hidx as [| hs h sets' idx' Hh Hrest]; subst.
    cbn [for_each].
    erewrite bind_returned
      by (apply dispatch_part_run; [exact Hkw | exact Hh]).
    cbn zeta.
    rewrite (IH _ _ idx' Hrest).
    cbn [partition_ids index_ids dtype_ids fst snd].
    rewrite <- !app_assoc. reflexivity.
Qed.

Lemma dispatch_run sql c ic kw row_cnt tr idx :
  let P := NPartitions_get E in
  let sets := handle_sets E sql c ic kw P tr (plan row_cnt P) in
  keyword_clash kw = false ->
  index_handles_of sets idx ->
  dispatch E sql c ic kw P (Py.ceil_truediv row_cnt P) tr =
  (Returned
     {| partition_ids := map data_row sets;
        index_ids := idx;
        dtype_ids := map (fun hs => ObjBlocks (data_row hs)) sets |},
   tr ++ map (deploy_event sql c ic kw P) (plan row_cnt P)).
Proof.
  intros P sets Hkw Hidx.
  unfold dispatch.
  now rewrite (for_each_dispatch sql c ic kw P _ Hkw _ tr no_ids idx Hidx).
Qed.

Lemma read_reaches_reconcile sql con ic kw tr c df1 df2 idx :
  reaches_reconcile E sql con ic kw tr c df1 df2 idx ->
  _read E sql con ic kw tr =
  assemble (deployed_sets E tr sql c ic kw (squeeze E df1)) (columns E df2)
    (reconcile E ic idx
       (dispatched_trace E tr sql c ic kw (squeeze E df1))).
Proof.
  intros (Hcon & Hcnt & Hcols & HP & Hkw & Hidx).
  unfold _read. rewrite Hcon.
  unfold pandas_read_sql.
  erewrite bind_returned by (unfold call; rewrite Hcnt; reflexivity).
  erewrite bind_returned
    by (unfold call; unfold row_cnt_probe in Hcols; rewrite Hcols;
        reflexivity).
  unfold compute_limit.
  destruct (Z.eqb_spec (NPartitions_get E) 0) as [H0 | _]; [lia |].
  erewrite bind_returned by reflexivity.
  erewrite bind_returned by (apply dispatch_run; [exact Hkw | exact Hidx]).
  unfold bind, assemble, dispatched_trace, probed_trace, deployed_sets.
  cbn [partition_ids index_ids].
  unfold row_cnt_probe, cols_names_probe, probed_trace.
  destruct (reconcile E ic idx _) as [[new_index | e] tr']; reflexivity.
Qed.

Lemma resolve_all_inr (tr : trace) (hs : list Handle)
    (vs : list (Materialized Val)) :
  Forall2 (fun h v => resolve E tr h = inr v) hs vs ->
  resolve_all E tr hs = inr vs.
Proof.
  induction 1 as [| h v hs vs Hh _ IH]; cbn.
  - reflexivity.
  - now rewrite Hh, IH.
Qed.

Lemma index_lens_of_lengths (lens : list Z) :
  index_lens_of (map (@MLen Val) lens) = Some lens.
Proof.
  induction lens as [| n lens IH]; cbn; [reflexivity | now rewrite IH].
Qed.


Lemma resolve_to_all {A} (wrap : A -> Materialized Val) tr hs vs :
  resolve_to E wrap tr hs vs -> resolve_all E tr hs = inr (map wrap vs).
Proof.
  intros H. apply resolve_all_inr.
  induction H; cbn; constructor; assumption.
Qed.

Lemma reconcile_lengths (tr : trace) (idx : list Handle) (lens : list Z) :
  resolve_to E (@MLen Val) tr idx lens ->
  reconcile E None idx tr =
  (Returned (RangeIndex (Py.sum lens)), tr ++ [EvMaterialize idx]).
Proof.
  intros H.
  unfold reconcile, cls_materialize.
  erewrite bind_returned
    by (unfold call; rewrite (resolve_to_all _ _ _ _ H); reflexivity).
  rewrite index_lens_of_lengths. reflexivity.
Qed.



End RunFacts.

(** ** What a run adds to the trace *)

Section Emits.

Context {Handle Val KwVal DataFrame Columns SW ExtErr : Type}.

Local Abbreviation event := (Event Handle KwVal).
Local Abbreviation M' := (M Handle KwVal ExtErr).

Variable E : Env Handle Val KwVal DataFrame Columns SW ExtErr.
Variable Q : event -> Prop.

Lemma emits_ret {A} (a : A) : emits Q (ret a : M' A).
Proof.
  intros tr. exists []. now rewrite app_nil_r.
Qed.

Lemma emits_raise {A} (e : Exn ExtErr) : emits Q (raise e : M' A).
Proof.
  intros tr. exists []. now rewrite app_nil_r.
Qed.

Lemma emits_of_option {A} (e : Exn ExtErr) (o : option A) :
  emits Q (of_option e o : M' A).
Proof.
  destruct o; [apply emits_ret | apply emits_raise].
Qed.

Lemma emits_call {A} (ev : event) (oracle : Trace Handle KwVal -> ExtErr + A) :
  Q ev -> emits Q (call ev oracle).
Proof.
  intros Hev tr. exists [ev]. unfold call.
  destruct (oracle tr); cbn; auto.
Qed.

Lemma emits_bind {A B} (m : M' A) (k : A -> M' B) :
  emits Q m -> (forall a, emits Q (k a)) -> emits Q (bind m k).
Proof.
  intros Hm Hk tr.
  destruct (Hm tr) as (evs & Htr & Hevs).
  unfold bind.
  destruct (m tr) as [[a | e] tr1]; cbn in Htr; subst tr1.
  - destruct (Hk a (tr ++ evs)) as (evs' & Htr' & Hevs').
    exists (evs ++ evs'). rewrite Htr', app_assoc.
    split; [reflexivity | now apply Forall_app].
  - exists evs. auto.
Qed.

Lemma emits_for_each {A S} (body : S -> A -> M' S) (l : list A) :
  (forall s x, emits Q (body s x)) -> forall s, emits Q (for_each body l s).
Proof.
  intros Hbody.
  induction l as [| x l IH]; intros s; cbn [for_each].
  - apply emits_ret.
  - apply emits_bind; [apply Hbody | exact IH].
Qed.

End Emits.

Create HintDb emits.

#[local] Hint Resolve emits_ret emits_raise emits_of_option emits_call
  emits_bind emits_for_each : emits.

Section Shape.

Context {Handle Val KwVal DataFrame Columns SW ExtErr : Type}.

Variable E : Env Handle Val KwVal DataFrame Columns SW ExtErr.

Lemma dispatch_part_shape sql c ic kw limit ids part :
  emits (deploy_shape (NPartitions_get E))
    (dispatch_part E sql c ic kw (NPartitions_get E) limit ids part).
Proof.
  unfold dispatch_part, deploy_kwargs.
  destruct (keyword_clash kw).
  - intros tr. exists []. now rewrite app_nil_r.
  - match goal with
    | |- emits ?Q (bind (ret ?a) ?k) => change (emits Q (k a))
    end.
    apply emits_bind.
    + apply emits_call. split; reflexivity.
    + intros partition_id. auto 6 with emits.
Qed.

Lemma set_names_shape (Q : Event Handle KwVal -> Prop) names
    (i : Index Val) :
  emits Q (set_names (ExtErr := ExtErr) E names i).
Proof.
  unfold set_names.
  destruct names;
    match goal with
    | |- context [if ?b then _ else _] => destruct b
    end; auto with emits.
Qed.

Lemma read_shape sql con ic kw :
  emits (deploy_shape (NPartitions_get E)) (_read E sql con ic kw).
Proof.
  unfold _read.
  destruct (normalize_con E con) as [c | info | t].
  - apply emits_bind; [now apply emits_call |]. intros row_cnt_df.
    apply emits_bind; [now apply emits_call |]. intros cols_names_df.
    apply emits_bind.
    { unfold compute_limit.
      destruct (NPartitions_get E =? 0); [| auto with emits].
      destruct (squeeze E row_cnt_df =? 0); auto with emits. }
    intros limit.
    apply emits_bind.
    { apply emits_for_each. intros ids part. apply dispatch_part_shape. }
    intros ids.
    apply emits_bind; [| auto with emits].
    unfold reconcile, cls_materialize.
    destruct ic; (apply emits_bind; [now apply emits_call |]);
      intros vs; [| auto 6 with emits].
    apply emits_bind; [auto with emits |].
    intros index_lst. apply set_names_shape.
  - apply emits_bind; [now apply emits_call |]. intros _.
    apply emits_bind; [now apply emits_call |]. auto with emits.
  - apply emits_bind; [now apply emits_call |]. intros _.
    apply emits_bind; [now apply emits_call |]. auto with emits.
Qed.

Lemma reconcile_trace ic idx (tr : Trace Handle KwVal) :
  snd (reconcile E ic idx tr) = tr ++ [EvMaterialize idx].
Proof.
  unfold reconcile, cls_materialize, bind, call.
  destruct ic as [names |]; destruct (resolve_all E tr idx) as [e | vs];
    cbn; try reflexivity.
  - destruct (index_lst_of vs) as [index_lst |]; cbn; [| reflexivity].
    unfold set_names.
    destruct names;
      match goal with
      | |- context [if ?b then _ else _] => destruct b
      end; reflexivity.
  - destruct (index_lens_of vs); reflexivity.
Qed.

Lemma count_deploys_app (tr1 tr2 : Trace Handle KwVal) :
  count_deploys (tr1 ++ tr2) = (count_deploys tr1 + count_deploys tr2)%nat.
Proof.
  unfold count_deploys. now rewrite filter_app, length_app.
Qed.

Lemma count_deploys_plan sql c ic (kw : Kwargs KwVal) P (rs : list (Z * Z)) :
  count_deploys (map (deploy_event (Handle := Handle) sql c ic kw P) rs)
  = List.length rs.
Proof.
  unfold count_deploys.
  induction rs as [| r rs IH]; cbn; [reflexivity | now rewrite IH].
Qed.

End Shape.

(** ** The range partition planner *)

Section Planner.

Variables row_cnt P : Z.

Let limit := Py.ceil_truediv row_cnt P.

Lemma plan_length : List.length (plan row_cnt P) = Z.to_nat P.
Proof.
  unfold plan. now rewrite length_map, PyFacts.range_length.
Qed.

Lemma plan_nth_error (k : nat) :
  (k < Z.to_nat P)%nat ->
  nth_error (plan row_cnt P) k = Some (Z.of_nat k * limit, limit).
Proof.
  intros Hk. unfold plan.
  now rewrite nth_error_map, PyFacts.range_nth_error.
Qed.


Lemma plan_limits : map snd (plan row_cnt P) = repeat limit (Z.to_nat P).
Proof.
  unfold plan, Py.range. rewrite !map_map. cbn [snd].
  fold limit.
  generalize 0%nat.
  induction (Z.to_nat P) as [| n IH]; intros s; cbn; [reflexivity |].
  now rewrite IH.
Qed.

Lemma plan_limits_sum : Py.sum (map snd (plan row_cnt P)) = Z.max 0 P * limit.
Proof.
  rewrite plan_limits, PyFacts.sum_repeat. lia.
Qed.

End Planner.




(** C5.  Scenario B: for 10 rows and 3 partitions the limit is
    [ceil(10/3) = 4], the ranges are [(0,4), (4,4), (8,4)], and the limits
    sum to 12 although only 10 rows exist; the three fetch tasks carry
    exactly these limits and offsets. *)
Theorem scenario_B_ranges :
  Py.ceil_truediv 10 3 = 4
  /\ plan 10 3 = [(0, 4); (4, 4); (8, 4)]
  /\ Py.sum (map snd (plan 10 3)) = 12
  /\ 10 < Py.sum (map snd (plan 10 3))
  /\ Scenario.deployed_queries
       (snd (Scenario.run
               (_read (Scenario.env 3 (Scenario.table 10 ["a"; "b"])
                         [inr (MLen 4); inr (MLen 4); inr (MLen 2)])
                      "t" (ConStr "sqlite:///db") None [])))
     = ["SELECT * FROM (t) as foo LIMIT 4 OFFSET 0";
        "SELECT * FROM (t) as foo LIMIT 4 OFFSET 4";
        "SELECT * FROM (t) as foo LIMIT 4 OFFSET 8"].
Proof.
  repeat split; try reflexivity.
Qed.

(** ** Connection handling and probe failures *)

Section Connection.

Context {Handle Val KwVal DataFrame Columns SW ExtErr : Type}.

Variable E : Env Handle Val KwVal DataFrame Columns SW ExtErr.

Lemma normalize_unrecognized (con : Con) :
  recognized E con = false -> normalize_con E con = con.
Proof.
  unfold recognized, normalize_con.
  destruct (pg_importable E), con; cbn; congruence.
Qed.

Lemma normalize_string (url : string) :
  normalize_con E (ConStr url) = ConStr url.
Proof.
  unfold normalize_con. now destruct (pg_importable E).
Qed.

Lemma read_fallback sql con ic kw (tr : Trace Handle KwVal) :
  is_string (normalize_con E con) = false ->
  _read E sql con ic kw tr =
  (match single_worker_read E
           (tr ++ [EvWarn (fallback_warning (normalize_con E con))])
           sql (normalize_con E con) ic kw with
   | inr result => Returned (SingleWorker result)
   | inl e => Raised (Propagated e)
   end,
   tr ++ [EvWarn (fallback_warning (normalize_con E con));
          EvSingleWorkerRead sql (normalize_con E con) ic kw]).
Proof.
  intros Hstr. unfold _read.
  destruct (normalize_con E con) as [url | info | t]; [discriminate | |];
    unfold bind, call, ret; cbn;
    match goal with
    | |- context [single_worker_read ?e ?t ?s ?c ?i ?k] =>
        destruct (single_worker_read e t s c i k)
    end; rewrite <- app_assoc; reflexivity.
Qed.

End Connection.

(** C6.  A connection that is neither a string nor of a recognized driver
    type makes the dispatcher emit the warning and return what the
    single-worker path returns (or raise what that path raises): the trace
    holds the warning and the fallback call and nothing else, so no probe
    is issued and no task is deployed. *)
Theorem unserializable_connection_falls_back
    {Handle Val KwVal DataFrame Columns SW ExtErr : Type}
    (E : Env Handle Val KwVal DataFrame Columns SW ExtErr)
    sql con ic kw (tr : Trace Handle KwVal) :
  is_string con = false ->
  recognized E con = false ->
  _read E sql con ic kw tr =
  (match single_worker_read E (tr ++ [EvWarn (fallback_warning con)])
           sql con ic kw with
   | inr result => Returned (SingleWorker result)
   | inl e => Raised (Propagated e)
   end,
   tr ++ [EvWarn (fallback_warning con);
          EvSingleWorkerRead sql con ic kw]).
Proof.
  intros Hstr Hrec.
  pose proof (read_fallback E sql con ic kw tr) as H.
  rewrite (normalize_unrecognized E con Hrec) in H.
  exact (H Hstr).
Qed.

Lemma unserializable_connection_falls_back_witness :
  Scenario.run
    (_read (Scenario.env 4 (Scenario.table 10 ["a"]) []) "t"
       Scenario.sqlite_con None [])
  = (Returned (SingleWorker "t"),
     [EvWarn (fallback_warning Scenario.sqlite_con);
      EvSingleWorkerRead "t" Scenario.sqlite_con None []]).
Proof.
  exact (unserializable_connection_falls_back
           (Scenario.env 4 (Scenario.table 10 ["a"]) []) "t"
           Scenario.sqlite_con None [] [] eq_refl eq_refl).
Defined.

(** C7.  When the row-count probe raises, or the row-count probe answers
    and the schema probe raises, [_read] raises that very error; the calls
    it has made by then are the failed probe, preceded by the row-count
    probe if it was the schema probe that failed.  So no task has been
    deployed, nothing has been materialized and nothing is returned. *)
Theorem probe_failure_propagates
    {Handle Val KwVal DataFrame Columns SW ExtErr : Type}
    (E : Env Handle Val KwVal DataFrame Columns SW ExtErr)
    sql con c ic kw (tr : Trace Handle KwVal) (e : ExtErr) :
  normalize_con E con = ConStr c ->
  read_sql E tr (row_cnt_query sql) c None = inl e
  \/ (exists df1,
        read_sql E tr (row_cnt_query sql) c None = inr df1
        /\ read_sql E (tr ++ [row_cnt_probe sql c]) (cols_names_query sql)
             c ic = inl e) ->
  exists probes,
    _read E sql con ic kw tr = (Raised (Propagated e), tr ++ probes)
    /\ (probes = [row_cnt_probe sql c]
        \/ probes = [row_cnt_probe sql c; cols_names_probe sql c ic])
    /\ count_deploys probes = 0%nat.
Proof.
  intros Hcon Hfail.
  unfold _read. rewrite Hcon. unfold pandas_read_sql, bind, call.
  destruct Hfail as [Hcnt | (df1 & Hcnt & Hcols)].
  - exists [row_cnt_probe sql c]. rewrite Hcnt. auto.
  - exists [row_cnt_probe sql c; cols_names_probe sql c ic].
    rewrite Hcnt. unfold row_cnt_probe in Hcols. rewrite Hcols.
    rewrite <- app_assoc. auto.
Qed.

Lemma probe_failure_propagates_witness :
  (exists probes,
     Scenario.run
       (_read (Scenario.env 4 Scenario.unreachable []) "t"
          (ConStr "sqlite:///db") (Some (Col "id")) [])
     = (Raised (Propagated "connection refused"), [] ++ probes)
     /\ (probes = [row_cnt_probe "t" "sqlite:///db"]
         \/ probes = [row_cnt_probe "t" "sqlite:///db";
                      cols_names_probe "t" "sqlite:///db"
                        (Some (Col "id"))])
     /\ count_deploys probes = 0%nat)
  /\ (exists probes,
        Scenario.run
          (_read (Scenario.env 4 (Scenario.no_schema 10) []) "t"
             (ConStr "sqlite:///db") (Some (Col "id")) [])
        = (Raised (Propagated "permission denied"), [] ++ probes)
        /\ (probes = [row_cnt_probe "t" "sqlite:///db"]
            \/ probes = [row_cnt_probe "t" "sqlite:///db";
                         cols_names_probe "t" "sqlite:///db"
                           (Some (Col "id"))])
        /\ count_deploys probes = 0%nat).
Proof.
  split.
  - exact (probe_failure_propagates
             (Scenario.env 4 Scenario.unreachable []) "t"
             (ConStr "sqlite:///db") "sqlite:///db" (Some (Col "id")) [] []
             "connection refused" eq_refl (or_introl eq_refl)).
  - exact (probe_failure_propagates
             (Scenario.env 4 (Scenario.no_schema 10) []) "t"
             (ConStr "sqlite:///db") "sqlite:///db" (Some (Col "id")) [] []
             "permission denied" eq_refl
             (or_intror
                (ex_intro _ (10, ["count"]) (conj eq_refl eq_refl)))).
Defined.

(** C8.  With psycopg2 importable, a psycopg2 connection is replaced by a
    string made of its user, password, host, port and database name, and
    the call goes on exactly as if that string had been passed; when the
    host is ["/tmp"] neither the host nor the port appears in it. *)
Theorem psycopg2_connection_string
    {Handle Val KwVal DataFrame Columns SW ExtErr : Type}
    (E : Env Handle Val KwVal DataFrame Columns SW ExtErr)
    (info : ConnInfo) :
  pg_importable E = true ->
  normalize_con E (ConPg info) = ConStr (connection_url info)
  /\ (host info = "/tmp" ->
      connection_url info
      = ("postgresql+psycopg2://" ++ user info ++ ":" ++ password info
           ++ "@" ++ "/" ++ dbname info)%string)
  /\ (host info <> "/tmp" ->
      connection_url info
      = ("postgresql+psycopg2://" ++ user info ++ ":" ++ password info
           ++ "@" ++ host info ++ ":" ++ Py.str (port info)
           ++ "/" ++ dbname info)%string)
  /\ (forall sql ic kw tr,
        _read E sql (ConPg info) ic kw tr
        = _read E sql (ConStr (connection_url info)) ic kw tr).
Proof.
  intros Hpg.
  assert (Hnorm : normalize_con E (ConPg info)
                  = ConStr (connection_url info)).
  { unfold normalize_con. now rewrite Hpg. }
  repeat split.
  - exact Hnorm.
  - intros Hhost. unfold connection_url.
    apply String.eqb_eq in Hhost. rewrite Hhost. reflexivity.
  - intros Hhost. unfold connection_url.
    apply String.eqb_neq in Hhost. rewrite Hhost.
    reflexivity.
  - intros sql ic kw tr. unfold _read.
    now rewrite Hnorm, normalize_string.
Qed.

Lemma psycopg2_connection_string_witness :
  connection_url Scenario.socket_info = "postgresql+psycopg2://u:p@/db"
  /\ connection_url Scenario.tcp_info
     = "postgresql+psycopg2://u:p@pg.local:5432/db".
Proof.
  pose proof (psycopg2_connection_string
                (Scenario.env 2 (Scenario.table 0 []) [])
                Scenario.socket_info eq_refl)
    as (_ & Hsocket & _).
  pose proof (psycopg2_connection_string
                (Scenario.env 2 (Scenario.table 0 []) [])
                Scenario.tcp_info eq_refl)
    as (_ & _ & Htcp & _).
  split.
  - exact (Hsocket eq_refl).
  - apply Htcp. discriminate.
Defined.

(** ** Dispatch, reconciliation and assembly *)

Section Assembly.

Context {Handle Val KwVal DataFrame Columns SW ExtErr : Type}.

Variable E : Env Handle Val KwVal DataFrame Columns SW ExtErr.

Lemma assemble_trace (sets : list (list Handle)) (cols : Columns)
    (r : Outcome ExtErr (Index Val) * Trace Handle KwVal) :
  snd (assemble (SW := SW) sets cols r) = snd r.
Proof.
  destruct r as [[new_index | e] tr']; reflexivity.
Qed.

Lemma read_trace sql con ic kw tr c df1 df2 idx :
  reaches_reconcile E sql con ic kw tr c df1 df2 idx ->
  snd (_read E sql con ic kw tr)
  = dispatched_trace E tr sql c ic kw (squeeze E df1) ++ [EvMaterialize idx].
Proof.
  intros Hreach.
  rewrite (read_reaches_reconcile E _ _ _ _ _ _ _ _ _ Hreach).
  now rewrite assemble_trace, reconcile_trace.
Qed.

Lemma index_handles_length (sets : list (list Handle)) idx :
  index_handles_of sets idx -> List.length idx = List.length sets.
Proof.
  intros H. symmetry. exact (Forall2_length H).
Qed.

Lemma deployed_sets_length tr sql c ic kw row_cnt :
  List.length (deployed_sets E tr sql c ic kw row_cnt)
  = Z.to_nat (NPartitions_get E).
Proof.
  unfold deployed_sets.
  rewrite <- (plan_length row_cnt (NPartitions_get E)).
  generalize (probed_trace tr sql c ic).
  induction (plan row_cnt (NPartitions_get E)) as [| r rs IH]; intros t;
    cbn; [reflexivity | now rewrite IH].
Qed.

Lemma handle_positions (hs : list Handle) (P : Z) :
  0 <= P ->
  Z.of_nat (List.length hs) = P + 2 ->
  Z.of_nat (List.length (data_row hs)) = P
  /\ Py.index_neg2 hs = nth_error hs (Z.to_nat P)
  /\ Py.index_neg1 hs = nth_error hs (Z.to_nat (P + 1)).
Proof.
  intros HP Hlen.
  unfold data_row, Py.slice_to_neg2, Py.index_neg2, Py.index_neg1.
  rewrite length_map, length_firstn.
  destruct (Nat.ltb_spec (List.length hs) 2); [lia |].
  destruct (Nat.ltb_spec (List.length hs) 1); [lia |].
  repeat split.
  - lia.
  - f_equal. lia.
  - f_equal. lia.
Qed.

End Assembly.

(** C9.  Whatever the arguments and whatever the collaborators answer,
    every fetch task [_read] submits asks for [P + 2] results and passes
    [num_splits = P], with [P] the configured number of partitions; a call
    that gets through dispatch submits exactly [P] of them.  In a handle
    set of [P + 2] elements the dispatcher takes the first [P] as data
    blocks, the next one as the index handle, and the last one is the dtype
    handle. *)
Theorem deploy_calls_shape
    {Handle Val KwVal DataFrame Columns SW ExtErr : Type}
    (E : Env Handle Val KwVal DataFrame Columns SW ExtErr)
    sql con ic kw (tr : Trace Handle KwVal) :
  (exists evs,
     snd (_read E sql con ic kw tr) = tr ++ evs
     /\ Forall (deploy_shape (NPartitions_get E)) evs
     /\ (forall c df1 df2 idx,
           reaches_reconcile E sql con ic kw tr c df1 df2 idx ->
           Z.of_nat (count_deploys evs) = NPartitions_get E))
  /\ (forall hs : list Handle,
        0 <= NPartitions_get E ->
        Z.of_nat (List.length hs) = NPartitions_get E + 2 ->
        Z.of_nat (List.length (data_row hs)) = NPartitions_get E
        /\ Py.index_neg2 hs = nth_error hs (Z.to_nat (NPartitions_get E))
        /\ Py.index_neg1 hs
           = nth_error hs (Z.to_nat (NPartitions_get E + 1))).
Proof.
  split; [| intros hs; apply handle_positions].
  destruct (read_shape E sql con ic kw tr) as (evs & Htr & Hshape).
  exists evs. repeat split; [exact Htr | exact Hshape |].
  intros c df1 df2 idx Hreach.
  pose proof (read_trace E _ _ _ _ _ _ _ _ _ Hreach) as Htr'.
  rewrite Htr in Htr'.
  unfold dispatched_trace, probed_trace in Htr'.
  rewrite <- !app_assoc in Htr'.
  apply app_inv_head in Htr'. subst evs.
  rewrite !count_deploys_app, count_deploys_plan, plan_length.
  destruct Hreach as (_ & _ & _ & HP & _).
  cbn. lia.
Qed.

Lemma deploy_calls_shape_witness :
  exists evs,
    snd (Scenario.run
           (_read (Scenario.env 3 (Scenario.table 10 ["a"; "b"])
                     [inr (MLen 4); inr (MLen 4); inr (MLen 2)])
                  "t" (ConStr "sqlite:///db") None []))
    = [] ++ evs
    /\ Forall (deploy_shape 3) evs
    /\ Z.of_nat (count_deploys evs) = 3.
Proof.
  destruct (deploy_calls_shape
              (Scenario.env 3 (Scenario.table 10 ["a"; "b"])
                 [inr (MLen 4); inr (MLen 4); inr (MLen 2)])
              "t" (ConStr "sqlite:///db") None [] [])
    as ((evs & Htr & Hshape & Hcount) & _).
  exists evs. repeat split; [exact Htr | exact Hshape |].
  apply (Hcount "sqlite:///db" (10, ["count"]) (0, ["a"; "b"])
           [(0%nat, 3%nat); (1%nat, 3%nat); (2%nat, 3%nat)]).
  unfold reaches_reconcile.
  repeat split; try reflexivity; try discriminate.
  vm_compute. repeat constructor.
Defined.

(** C3.  With no index column, a call that gets through dispatch and whose
    [P] index handles resolve to the lengths [lens] materializes exactly
    those handles and returns a frame whose index is [RangeIndex(N)] with
    [N] the sum of the lengths: its labels are [0, ..., N - 1], each once
    and none missing. *)
Theorem range_index_of_lengths
    {Handle Val KwVal DataFrame Columns SW ExtErr : Type}
    (E : Env Handle Val KwVal DataFrame Columns SW ExtErr)
    sql con kw (tr : Trace Handle KwVal) c df1 df2 idx lens :
  reaches_reconcile E sql con None kw tr c df1 df2 idx ->
  resolve_to E (@MLen Val)
    (dispatched_trace E tr sql c None kw (squeeze E df1)) idx lens ->
  exists frame,
    _read E sql con None kw tr
    = (Returned (query_compiler_cls frame),
       dispatched_trace E tr sql c None kw (squeeze E df1)
         ++ [EvMaterialize idx])
    /\ List.length idx = Z.to_nat (NPartitions_get E)
    /\ frame_index frame = RangeIndex (Py.sum lens)
    /\ NoDup (range_labels (frame_index frame))
    /\ (forall i, In i (range_labels (frame_index frame))
                  <-> 0 <= i < Py.sum lens)
    /\ (forall i, 0 <= i < Py.sum lens ->
                  nth_error (range_labels (frame_index frame)) (Z.to_nat i)
                  = Some i).
Proof.
  intros Hreach Hres.
  rewrite (read_reaches_reconcile E _ _ _ _ _ _ _ _ _ Hreach).
  rewrite (reconcile_lengths E _ _ _ Hres).
  eexists. split; [reflexivity |].
  cbn [frame_index synchronize_labels frame_cls range_labels].
  refine (conj _ (conj eq_refl (conj _ (conj _ _)))).
  - destruct Hreach as (_ & _ & _ & _ & _ & Hidx).
    rewrite (index_handles_length _ _ Hidx).
    apply deployed_sets_length.
  - apply PyFacts.range_NoDup.
  - intros i. apply PyFacts.range_In.
  - intros i Hi.
    rewrite PyFacts.range_nth_error by lia.
    now rewrite Z2Nat.id by lia.
Qed.

Lemma range_index_of_lengths_witness :
  exists frame,
    Scenario.run
      (_read (Scenario.env 3 (Scenario.table 10 ["a"; "b"])
                [inr (MLen 4); inr (MLen 4); inr (MLen 2)])
             "t" (ConStr "sqlite:///db") None [])
    = (Returned (query_compiler_cls frame),
       dispatched_trace
         (Scenario.env 3 (Scenario.table 10 ["a"; "b"])
            [inr (MLen 4); inr (MLen 4); inr (MLen 2)])
         [] "t" "sqlite:///db" None [] 10
       ++ [EvMaterialize [(0%nat, 3%nat); (1%nat, 3%nat); (2%nat, 3%nat)]])
    /\ frame_index frame = RangeIndex 10
    /\ range_labels (frame_index frame) = [0; 1; 2; 3; 4; 5; 6; 7; 8; 9].
Proof.
  destruct (range_index_of_lengths
              (Scenario.env 3 (Scenario.table 10 ["a"; "b"])
                 [inr (MLen 4); inr (MLen 4); inr (MLen 2)])
              "t" (ConStr "sqlite:///db") [] [] "sqlite:///db"
              (10, ["count"]) (0, ["a"; "b"])
              [(0%nat, 3%nat); (1%nat, 3%nat); (2%nat, 3%nat)] [4; 4; 2])
    as (frame & Hrun & _ & Hindex & _).
  - unfold reaches_reconcile.
    repeat split; try reflexivity; try discriminate.
    vm_compute. repeat constructor.
  - vm_compute. repeat constructor.
  - exists frame. split; [exact Hrun |]. split; [exact Hindex |].
    rewrite Hindex. reflexivity.
Defined.




(** ** The dtype handles *)

Section Dtype.

Context {Handle Val KwVal DataFrame Columns SW ExtErr : Type}.

Local Abbreviation M' := (M Handle KwVal ExtErr).

Variable E : Env Handle Val KwVal DataFrame Columns SW ExtErr.
Variable d : Trace Handle KwVal -> Z -> TaskArgs KwVal -> list Handle.

Hypothesis d_same :
  forall tr num_returns args,
    same_but_dtype (d tr num_returns args) (deploy E tr num_returns args).

Lemma bind_ext {A B} (m1 m2 : M' A) (k1 k2 : A -> M' B) tr :
  m1 tr = m2 tr ->
  (forall a tr', k1 a tr' = k2 a tr') ->
  bind m1 k1 tr = bind m2 k2 tr.
Proof.
  intros Hm Hk. unfold bind. rewrite Hm.
  destruct (m2 tr) as [[a | e] tr']; [apply Hk | reflexivity].
Qed.

Lemma dispatch_part_same sql c ic kw P limit ids part tr :
  dispatch_part (with_deploy E d) sql c ic kw P limit ids part tr
  = dispatch_part E sql c ic kw P limit ids part tr.
Proof.
  unfold dispatch_part, deploy_kwargs.
  destruct (keyword_clash kw); [reflexivity |].
  unfold cls_deploy, call, bind, ret. cbn [deploy with_deploy].
  destruct (d_same tr (P + 2)
              (task_args P (partition_query sql limit (part * limit))
                 c ic kw)) as [Hdata Hindex].
  unfold data_row. now rewrite Hdata, Hindex.
Qed.

Lemma for_each_same {A S} (body1 body2 : S -> A -> M' S) (l : list A) :
  (forall s x tr, body1 s x tr = body2 s x tr) ->
  forall s tr, for_each body1 l s tr = for_each body2 l s tr.
Proof.
  intros Hbody.
  induction l as [| x l IH]; intros s tr; cbn [for_each].
  - reflexivity.
  - apply bind_ext; [apply Hbody | exact IH].
Qed.

Lemma resolve_all_same tr hs :
  resolve_all (with_deploy E d) tr hs = resolve_all E tr hs.
Proof.
  induction hs as [| h hs IH]; cbn; [reflexivity | now rewrite IH].
Qed.

Lemma reconcile_same ic idx tr :
  reconcile (with_deploy E d) ic idx tr = reconcile E ic idx tr.
Proof.
  unfold reconcile, cls_materialize, bind, call.
  destruct ic; now rewrite resolve_all_same.
Qed.

Lemma read_same sql con ic kw tr :
  _read (with_deploy E d) sql con ic kw tr = _read E sql con ic kw tr.
Proof.
  unfold _read.
  change (normalize_con (with_deploy E d) con) with (normalize_con E con).
  destruct (normalize_con E con) as [c | info | t]; [| reflexivity ..].
  apply bind_ext; [reflexivity |]. intros row_cnt_df tr1.
  apply bind_ext; [reflexivity |]. intros cols_names_df tr2.
  apply bind_ext; [reflexivity |]. intros limit tr3.
  apply bind_ext.
  - apply for_each_same. intros ids part tr'. apply dispatch_part_same.
  - intros ids tr4.
    apply bind_ext; [apply reconcile_same | reflexivity].
Qed.

End Dtype.

Lemma same_but_dtype_replace_last {Handle : Type} (h : Handle)
    (hs : list Handle) :
  same_but_dtype (replace_last h hs) hs.
Proof.
  destruct hs as [| x hs']; [split; reflexivity |].
  pose proof (app_removelast_last x (l := x :: hs') ltac:(discriminate))
    as Heq.
  unfold replace_last.
  set (l := removelast (x :: hs')) in *.
  set (y := last (x :: hs') x) in *.
  clearbody l y. rewrite Heq. clear Heq.
  unfold same_but_dtype, Py.slice_to_neg2, Py.index_neg2.
  rewrite !length_app. cbn [List.length].
  split.
  - rewrite !firstn_app.
    replace (List.length l + 1 - 2 - List.length l)%nat with 0%nat by lia.
    reflexivity.
  - destruct (Nat.ltb_spec (List.length l + 1) 2); [reflexivity |].
    now rewrite !nth_error_app1 by lia.
Qed.

(** C10.  In a call that gets through dispatch and whose index is
    reconciled, the returned frame's columns are the columns of the
    zero-row schema probe, the only handles materialized are the index
    handles, and replacing the dtype handle (the last element) of every
    handle set by any other handle changes neither the returned object nor
    the calls made. *)
Theorem schema_from_probe_only
    {Handle Val KwVal DataFrame Columns SW ExtErr : Type}
    (E : Env Handle Val KwVal DataFrame Columns SW ExtErr)
    (dtype : Trace Handle KwVal -> Z -> TaskArgs KwVal -> Handle)
    sql con ic kw (tr : Trace Handle KwVal) c df1 df2 idx new_index tr' :
  reaches_reconcile E sql con ic kw tr c df1 df2 idx ->
  reconcile E ic idx (dispatched_trace E tr sql c ic kw (squeeze E df1))
  = (Returned new_index, tr') ->
  exists frame,
    _read E sql con ic kw tr = (Returned (query_compiler_cls frame), tr')
    /\ frame_columns frame = columns E df2
    /\ frame_index frame = new_index
    /\ frame_partitions frame
       = map data_row (deployed_sets E tr sql c ic kw (squeeze E df1))
    /\ tr' = dispatched_trace E tr sql c ic kw (squeeze E df1)
             ++ [EvMaterialize idx]
    /\ _read (with_dtype_handles E dtype) sql con ic kw tr
       = _read E sql con ic kw tr.
Proof.
  intros Hreach Hrec.
  rewrite (read_reaches_reconcile E _ _ _ _ _ _ _ _ _ Hreach).
  pose proof (reconcile_trace E ic idx
                (dispatched_trace E tr sql c ic kw (squeeze E df1))) as Htr.
  rewrite Hrec in *. cbn [snd] in Htr.
  eexists. split; [reflexivity |].
  refine (conj eq_refl (conj eq_refl (conj eq_refl (conj Htr _)))).
  rewrite <- Hrec.
  rewrite <- (read_reaches_reconcile E _ _ _ _ _ _ _ _ _ Hreach).
  apply read_same.
  intros t n a. apply same_but_dtype_replace_last.
Qed.

Lemma schema_from_probe_only_witness :
  exists frame,
    Scenario.run
      (_read (Scenario.env 3 (Scenario.table 10 ["a"; "b"])
                [inr (MLen 4); inr (MLen 4); inr (MLen 2)])
             "t" (ConStr "sqlite:///db") None [])
    = (Returned (query_compiler_cls frame),
       dispatched_trace
         (Scenario.env 3 (Scenario.table 10 ["a"; "b"])
            [inr (MLen 4); inr (MLen 4); inr (MLen 2)])
         [] "t" "sqlite:///db" None [] 10
       ++ [EvMaterialize [(0%nat, 3%nat); (1%nat, 3%nat); (2%nat, 3%nat)]])
    /\ frame_columns frame = ["a"; "b"]
    /\ Scenario.run
         (_read (with_dtype_handles
                   (Scenario.env 3 (Scenario.table 10 ["a"; "b"])
                      [inr (MLen 4); inr (MLen 4); inr (MLen 2)])
                   (fun _ _ _ => (7%nat, 7%nat)))
                "t" (ConStr "sqlite:///db") None [])
       = Scenario.run
           (_read (Scenario.env 3 (Scenario.table 10 ["a"; "b"])
                     [inr (MLen 4); inr (MLen 4); inr (MLen 2)])
                  "t" (ConStr "sqlite:///db") None []).
Proof.
  destruct (schema_from_probe_only
              (Scenario.env 3 (Scenario.table 10 ["a"; "b"])
                 [inr (MLen 4); inr (MLen 4); inr (MLen 2)])
              (fun _ _ _ => (7%nat, 7%nat))
              "t" (ConStr "sqlite:///db") None [] [] "sqlite:///db"
              (10, ["count"]) (0, ["a"; "b"])
              [(0%nat, 3%nat); (1%nat, 3%nat); (2%nat, 3%nat)]
              (RangeIndex 10)
              (dispatched_trace
                 (Scenario.env 3 (Scenario.table 10 ["a"; "b"])
                    [inr (MLen 4); inr (MLen 4); inr (MLen 2)])
                 [] "t" "sqlite:///db" None [] 10
               ++ [EvMaterialize
                     [(0%nat, 3%nat); (1%nat, 3%nat); (2%nat, 3%nat)]]))
    as (frame & Hrun & Hcols & _ & _ & _ & Hsame).
  - unfold reaches_reconcile.
    repeat split; try reflexivity; try discriminate.
    vm_compute. repeat constructor.
  - reflexivity.
  - exists frame. split; [exact Hrun |]. split; [exact Hcols | exact Hsame].
Defined.

(** C4.  The claim fails on the code as soon as there is a partition.  For
    two partitions whose handle sets are [(k,0), (k,1), (k,2), (k,3)],
    the dispatcher keeps the first two handles of each set as data blocks
    and the third as index handle, as claimed, but what it appends to
    [dtype_ids] is the row of data blocks just added to [partition_ids],
    not the last handle [(k,3)] of the set. *)
Theorem tracked_dtype_is_data_row :
  handle_sets (Scenario.env 2 (Scenario.table 5 ["a"; "b"]) [])
    "t" "sqlite:///db" None [] 2 [] (plan 5 2)
  = [[(0, 0); (0, 1); (0, 2); (0, 3)]; [(1, 0); (1, 1); (1, 2); (1, 3)]]%nat
  /\ fst (Scenario.run
            (dispatch (Scenario.env 2 (Scenario.table 5 ["a"; "b"]) [])
               "t" "sqlite:///db" None [] 2 (Py.ceil_truediv 5 2)))
     = Returned
         {| partition_ids :=
              [[frame_partition_cls (0, 0); frame_partition_cls (0, 1)];
               [frame_partition_cls (1, 0); frame_partition_cls (1, 1)]]%nat;
            index_ids := [(0, 2); (1, 2)]%nat;
            dtype_ids :=
              [ObjBlocks
                 [frame_partition_cls (0, 0); frame_partition_cls (0, 1)];
               ObjBlocks
                 [frame_partition_cls (1, 0); frame_partition_cls (1, 1)]]%nat
         |}
  /\ (forall ids,
        fst (Scenario.run
               (dispatch (Scenario.env 2 (Scenario.table 5 ["a"; "b"]) [])
                  "t" "sqlite:///db" None [] 2 (Py.ceil_truediv 5 2)))
        = Returned ids ->
        dtype_ids ids <> [ObjHandle (0, 3); ObjHandle (1, 3)]%nat).
Proof.
  split; [reflexivity |]. split; [reflexivity |].
  intros ids Hids. vm_compute in Hids.
  injection Hids as <-. discriminate.
Qed.

(** ** More on the planner *)



(** X2.  When the number of partitions divides the row count, both at most
    2^53 (where the float64 quotient of line 93 has the ceiling of the
    exact one), the limit is the exact quotient and the limits sum to the
    row count, so no range reaches past the end; with a single partition
    the plan is the one range [(0, row_cnt)]. *)
Theorem plan_exact_when_divisible (P q : Z) :
  1 <= P <= 2 ^ 53 ->
  0 <= q ->
  P * q <= 2 ^ 53 ->
  Py.ceil_truediv (P * q) P = q
  /\ Py.sum (map snd (plan (P * q) P)) = P * q
  /\ plan q 1 = [(0, q)].
Proof.
  intros HP Hq _.
  assert (Hceil : Py.ceil_truediv (P * q) P = q).
  { pose proof (PyFacts.ceil_truediv_spec (P * q) P ltac:(lia)). nia. }
  split; [exact Hceil |].
  split.
  - rewrite plan_limits_sum, Hceil. lia.
  - unfold plan. cbn [Py.range Z.to_nat Pos.to_nat Pos.iter_op seq map].
    pose proof (PyFacts.ceil_truediv_spec q 1 ltac:(lia)).
    replace (Py.ceil_truediv q 1) with q by lia.
    reflexivity.
Qed.

Lemma plan_exact_when_divisible_witness :
  Py.ceil_truediv (4 * 25) 4 = 25
  /\ Py.sum (map snd (plan (4 * 25) 4)) = 4 * 25
  /\ plan 25 1 = [(0, 25)].
Proof.
  apply (plan_exact_when_divisible 4 25); lia.
Defined.

(** X3.  When there are rows but no more of them than partitions, the
    limit is 1 and part [part] is planned as the range [(part, 1)]: all
    [P] ranges are still planned, and those of the parts from [row_cnt] on
    start at or beyond the end of the result and ask for no existing
    row. *)
Theorem plan_with_fewer_rows_than_partitions (row_cnt P : Z) :
  1 <= row_cnt <= P ->
  Py.ceil_truediv row_cnt P = 1
  /\ Z.of_nat (List.length (plan row_cnt P)) = P
  /\ (forall part, 0 <= part < P ->
        nth_error (plan row_cnt P) (Z.to_nat part) = Some (part, 1))
  /\ (forall part i, row_cnt <= part -> 0 <= i < row_cnt ->
        in_range (part, 1) i = false).
Proof.
  intros Hrows.
  assert (Hceil : Py.ceil_truediv row_cnt P = 1).
  { pose proof (PyFacts.ceil_truediv_spec row_cnt P ltac:(lia)). nia. }
  split; [exact Hceil |].
  split; [rewrite plan_length; lia |].
  split.
  - intros part Hpart.
    rewrite plan_nth_error by lia.
    rewrite Hceil, Z2Nat.id by lia.
    f_equal. f_equal. lia.
  - intros part i Hpart Hi. unfold in_range. cbn [fst snd].
    apply andb_false_intro1. apply Z.leb_gt. lia.
Qed.

Lemma plan_with_fewer_rows_than_partitions_witness :
  Py.ceil_truediv 2 4 = 1
  /\ Z.of_nat (List.length (plan 2 4)) = 4
  /\ (forall part, 0 <= part < 4 ->
        nth_error (plan 2 4) (Z.to_nat part) = Some (part, 1))
  /\ (forall part i, 2 <= part -> 0 <= i < 2 ->
        in_range (part, 1) i = false).
Proof.
  apply (plan_with_fewer_rows_than_partitions 2 4); lia.
Defined.

(** ** More on dispatch and reconciliation *)

Lemma plan_of_no_rows (P : Z) :
  1 <= P -> plan 0 P = repeat (0, 0) (Z.to_nat P).
Proof.
  intros HP. unfold plan.
  assert (Hceil : Py.ceil_truediv 0 P = 0).
  { pose proof (PyFacts.ceil_truediv_spec 0 P ltac:(lia)). nia. }
  rewrite Hceil. unfold Py.range. rewrite map_map.
  generalize 0%nat.
  induction (Z.to_nat P) as [| n IH]; intros s; cbn [seq map repeat].
  - reflexivity.
  - rewrite IH. f_equal. f_equal. lia.
Qed.

Lemma sum_of_zeros (lens : list Z) :
  Forall (fun n => n = 0) lens -> Py.sum lens = 0.
Proof.
  induction 1 as [| n lens Hn _ IH]; [reflexivity |].
  rewrite PyFacts.sum_cons, IH. lia.
Qed.

(** X4.  An empty result is not special-cased: when the count probe
    answers 0 and no index column is asked for, [_read] still deploys one
    task per partition, each for the range [(0, 0)], materializes their
    lengths, and, these being 0, returns a frame with the empty index
    [RangeIndex(0)] and the columns of the schema probe. *)
Theorem empty_result_still_dispatched
    {Handle Val KwVal DataFrame Columns SW ExtErr : Type}
    (E : Env Handle Val KwVal DataFrame Columns SW ExtErr)
    sql con kw (tr : Trace Handle KwVal) c df1 df2 idx lens :
  reaches_reconcile E sql con None kw tr c df1 df2 idx ->
  squeeze E df1 = 0 ->
  resolve_to E (@MLen Val) (dispatched_trace E tr sql c None kw 0) idx lens ->
  Forall (fun n => n = 0) lens ->
  exists frame,
    _read E sql con None kw tr
    = (Returned (query_compiler_cls frame),
       probed_trace tr sql c None
         ++ repeat (deploy_event sql c None kw (NPartitions_get E) (0, 0))
                   (Z.to_nat (NPartitions_get E))
         ++ [EvMaterialize idx])
    /\ frame_index frame = RangeIndex 0
    /\ range_labels (frame_index frame) = []
    /\ frame_columns frame = columns E df2.
Proof.
  intros Hreach Hzero Hres Hlens.
  rewrite (read_reaches_reconcile E _ _ _ _ _ _ _ _ _ Hreach).
  rewrite Hzero.
  rewrite (reconcile_lengths E _ _ _ Hres).
  rewrite (sum_of_zeros lens Hlens).
  destruct Hreach as (_ & _ & _ & HP & _).
  unfold dispatched_trace. rewrite (plan_of_no_rows _ HP), map_repeat.
  rewrite <- app_assoc.
  eexists. split; [reflexivity |].
  repeat split.
Qed.

Lemma empty_result_still_dispatched_witness :
  exists frame,
    Scenario.run
      (_read (Scenario.env 4 (Scenario.table 0 ["a"; "b"])
                [inr (MLen 0); inr (MLen 0); inr (MLen 0); inr (MLen 0)])
             "t" (ConStr "sqlite:///db") None [])
    = (Returned (query_compiler_cls frame),
       probed_trace [] "t" "sqlite:///db" None
         ++ repeat (deploy_event "t" "sqlite:///db" None [] 4 (0, 0)) 4
         ++ [EvMaterialize
               [(0%nat, 4%nat); (1%nat, 4%nat); (2%nat, 4%nat);
                (3%nat, 4%nat)]])
    /\ frame_index frame = RangeIndex 0
    /\ range_labels (frame_index frame) = []
    /\ frame_columns frame = ["a"; "b"].
Proof.
  apply (empty_result_still_dispatched
           (Scenario.env 4 (Scenario.table 0 ["a"; "b"])
              [inr (MLen 0); inr (MLen 0); inr (MLen 0); inr (MLen 0)])
           "t" (ConStr "sqlite:///db") [] [] "sqlite:///db"
           (0, ["count"]) (0, ["a"; "b"])
           [(0%nat, 4%nat); (1%nat, 4%nat); (2%nat, 4%nat); (3%nat, 4%nat)]
           [0; 0; 0; 0]).
  - unfold reaches_reconcile.
    repeat split; try reflexivity; try discriminate.
    vm_compute. repeat constructor.
  - reflexivity.
  - vm_compute. repeat constructor.
  - repeat constructor.
Defined.

Section FetchFailure.

Context {Handle Val KwVal DataFrame Columns SW ExtErr : Type}.

Variable E : Env Handle Val KwVal DataFrame Columns SW ExtErr.

Lemma resolve_all_first_error (tr : Trace Handle KwVal) pre h post e :
  Forall (fun h' => exists v, resolve E tr h' = inr v) pre ->
  resolve E tr h = inl e ->
  resolve_all E tr (pre ++ h :: post) = inl e.
Proof.
  intros Hpre Hh.
  induction Hpre as [| h' pre [v Hv] _ IH]; cbn.
  - now rewrite Hh.
  - now rewrite Hv, IH.
Qed.

Lemma reconcile_failure ic (tr : Trace Handle KwVal) idx e :
  resolve_all E tr idx = inl e ->
  reconcile E ic idx tr = (Raised (Propagated e), tr ++ [EvMaterialize idx]).
Proof.
  intros Hfail.
  unfold reconcile, cls_materialize, bind, call.
  destruct ic; now rewrite Hfail.
Qed.

End FetchFailure.

(** X5.  When, after a complete dispatch, the index handle of one
    partition fails to resolve while those of all other partitions
    resolve, [_read] raises that partition's error unchanged: every task
    has been deployed, the handles have been materialized once, and no
    frame is returned. *)
Theorem partition_failure_propagates
    {Handle Val KwVal DataFrame Columns SW ExtErr : Type}
    (E : Env Handle Val KwVal DataFrame Columns SW ExtErr)
    sql con ic kw (tr : Trace Handle KwVal) c df1 df2 pre h post e :
  reaches_reconcile E sql con ic kw tr c df1 df2 (pre ++ h :: post) ->
  Forall (fun h' =>
            exists v,
              resolve E (dispatched_trace E tr sql c ic kw (squeeze E df1))
                h' = inr v) pre ->
  Forall (fun h' =>
            exists v,
              resolve E (dispatched_trace E tr sql c ic kw (squeeze E df1))
                h' = inr v) post ->
  resolve E (dispatched_trace E tr sql c ic kw (squeeze E df1)) h = inl e ->
  _read E sql con ic kw tr
  = (Raised (Propagated e),
     dispatched_trace E tr sql c ic kw (squeeze E df1)
       ++ [EvMaterialize (pre ++ h :: post)]).
Proof.
  intros Hreach Hpre _ Hh.
  rewrite (read_reaches_reconcile E _ _ _ _ _ _ _ _ _ Hreach).
  rewrite (reconcile_failure E ic _ _ e
             (resolve_all_first_error E _ pre h post e Hpre Hh)).
  reflexivity.
Qed.

Lemma partition_failure_propagates_witness :
  Scenario.run
    (_read (Scenario.env 3 (Scenario.table 10 ["a"; "b"])
              [inr (MLen 4); inl "fetch failed"; inr (MLen 2)])
           "t" (ConStr "sqlite:///db") None [])
  = (Raised (Propagated "fetch failed"),
     dispatched_trace
       (Scenario.env 3 (Scenario.table 10 ["a"; "b"])
          [inr (MLen 4); inl "fetch failed"; inr (MLen 2)])
       [] "t" "sqlite:///db" None [] 10
     ++ [EvMaterialize [(0%nat, 3%nat); (1%nat, 3%nat); (2%nat, 3%nat)]]).
Proof.
  apply (partition_failure_propagates
           (Scenario.env 3 (Scenario.table 10 ["a"; "b"])
              [inr (MLen 4); inl "fetch failed"; inr (MLen 2)])
           "t" (ConStr "sqlite:///db") None [] [] "sqlite:///db"
           (10, ["count"]) (0, ["a"; "b"])
           [(0%nat, 3%nat)] (1%nat, 3%nat) [(2%nat, 3%nat)] "fetch failed").
  - unfold reaches_reconcile.
    repeat split; try reflexivity; try discriminate.
    vm_compute. repeat constructor.
  - constructor; [| constructor]. exists (MLen 4). reflexivity.
  - constructor; [| constructor]. exists (MLen 2). reflexivity.
  - reflexivity.
Defined.

(** X6.  A keyword argument named [num_splits] makes the parallel path
    fail with a TypeError when the first task's arguments are put
    together, as the task is given its own [num_splits]: both probes have
    been issued by then, and no task is deployed. *)
Theorem keyword_clash_raises
    {Handle Val KwVal DataFrame Columns SW ExtErr : Type}
    (E : Env Handle Val KwVal DataFrame Columns SW ExtErr)
    sql con ic kw (tr : Trace Handle KwVal) c df1 df2 :
  normalize_con E con = ConStr c ->
  read_sql E tr (row_cnt_query sql) c None = inr df1 ->
  read_sql E (tr ++ [row_cnt_probe sql c]) (cols_names_query sql) c ic
  = inr df2 ->
  1 <= NPartitions_get E ->
  Py.has_key "num_splits" kw = true ->
  _read E sql con ic kw tr = (Raised TypeError, probed_trace tr sql c ic).
Proof.
  intros Hcon Hcnt Hcols HP Hkw.
  unfold _read. rewrite Hcon. unfold pandas_read_sql.
  erewrite bind_returned by (unfold call; rewrite Hcnt; reflexivity).
  erewrite bind_returned
    by (unfold call; unfold row_cnt_probe in Hcols; rewrite Hcols;
        reflexivity).
  unfold compute_limit.
  destruct (Z.eqb_spec (NPartitions_get E) 0) as [H0 | _]; [lia |].
  erewrite bind_returned by reflexivity.
  unfold dispatch, Py.range.
  destruct (Z.to_nat (NPartitions_get E)) as [| n] eqn:Hn; [lia |].
  cbn [seq map for_each].
  unfold dispatch_part at 1, deploy_kwargs, keyword_clash. rewrite Hkw.
  reflexivity.
Qed.

Lemma keyword_clash_raises_witness :
  Scenario.run
    (_read (Scenario.env 3 (Scenario.table 10 ["a"; "b"]) [])
           "t" (ConStr "sqlite:///db") None [("num_splits", "8")])
  = (Raised TypeError, probed_trace [] "t" "sqlite:///db" None).
Proof.
  apply (keyword_clash_raises
           (Scenario.env 3 (Scenario.table 10 ["a"; "b"]) [])
           "t" (ConStr "sqlite:///db") None [("num_splits", "8")] []
           "sqlite:///db" (10, ["count"]) (0, ["a"; "b"]));
    try reflexivity.
  discriminate.
Defined.

(** ** The order of the calls *)

Section Phases.

Context {Handle Val KwVal DataFrame Columns SW ExtErr : Type}.

Variable E : Env Handle Val KwVal DataFrame Columns SW ExtErr.

Lemma dispatch_part_cases sql c ic kw P limit ids part
    (tr : Trace Handle KwVal) :
  dispatch_part E sql c ic kw P limit ids part tr = (Raised TypeError, tr)
  \/ dispatch_part E sql c ic kw P limit ids part tr
     = (Raised IndexError,
        tr ++ [deploy_event sql c ic kw P (part * limit, limit)])
  \/ exists ids',
       dispatch_part E sql c ic kw P limit ids part tr
       = (Returned ids',
          tr ++ [deploy_event sql c ic kw P (part * limit, limit)])
       /\ List.length (index_ids ids') = S (List.length (index_ids ids)).
Proof.
  unfold dispatch_part, deploy_kwargs.
  destruct (keyword_clash kw); [now left | right].
  unfold cls_deploy, call, bind, ret. cbn zeta.
  destruct (Py.index_neg2 _) as [h |]; cbn [of_option ret raise].
  - right. rewrite PyFacts.index_neg1_snoc. cbn.
    eexists. split; [reflexivity |]. cbn.
    rewrite length_app. cbn. lia.
  - now left.
Qed.

Lemma for_each_dispatch_phases sql c ic kw P limit parts :
  forall ids (tr : Trace Handle KwVal),
  exists deploys,
    snd (for_each (dispatch_part E sql c ic kw P limit) parts ids tr)
    = tr ++ deploys
    /\ Forall (is_fetch_task sql c ic kw P) deploys
    /\ (List.length deploys <= List.length parts)%nat
    /\ (forall ids',
          fst (for_each (dispatch_part E sql c ic kw P limit) parts ids tr)
          = Returned ids' ->
          List.length deploys = List.length parts
          /\ List.length (index_ids ids')
             = (List.length (index_ids ids) + List.length parts)%nat).
Proof.
  induction parts as [| part parts IH]; intros ids tr.
  - exists []. cbn. rewrite app_nil_r.
    split; [reflexivity |]. split; [constructor |]. split; [lia |].
    intros ids' Hids. injection Hids as <-. split; [reflexivity | lia].
  - cbn [for_each]. unfold bind.
    destruct (dispatch_part_cases sql c ic kw P limit ids part tr)
      as [Hpart | [Hpart | (ids1 & Hpart & Hlen)]]; rewrite Hpart.
    + exists []. cbn. rewrite app_nil_r.
      split; [reflexivity |]. split; [constructor |].
      split; [lia | discriminate].
    + eexists. cbn. split; [reflexivity |].
      split; [constructor; [| constructor]; now eexists |].
      split; [cbn [List.length]; lia | discriminate].
    + destruct (IH ids1
                  (tr ++ [deploy_event sql c ic kw P (part * limit, limit)]))
        as (deploys & Htr & Hfetch & Hmax & Hret).
      exists (deploy_event sql c ic kw P (part * limit, limit) :: deploys).
      rewrite Htr, <- app_assoc.
      split; [reflexivity |].
      split; [constructor; [now eexists | exact Hfetch] |].
      split; [cbn [List.length]; lia |].
      intros ids' Hids. destruct (Hret ids' Hids) as [Hd Hi].
      cbn [List.length]. lia.
Qed.

End Phases.

(** X7.  On a connection string [c] the calls [_read] makes always come in
    phases, whatever the collaborators answer: first the row-count probe,
    then the schema probe, then fetch tasks, each deployed with the same
    connection string, index column(s) and keyword arguments, and never
    more than [P] of them, and last at most one materialize.  A
    materialize happens only once all [P] tasks are deployed, and it is
    given one handle per task.  No warning is emitted and the
    single-worker path is not taken. *)
Theorem read_calls_in_phases
    {Handle Val KwVal DataFrame Columns SW ExtErr : Type}
    (E : Env Handle Val KwVal DataFrame Columns SW ExtErr)
    sql con ic kw (tr : Trace Handle KwVal) c :
  normalize_con E con = ConStr c ->
  exists probes deploys joins,
    snd (_read E sql con ic kw tr) = tr ++ probes ++ deploys ++ joins
    /\ (probes = [row_cnt_probe sql c]
        \/ probes = [row_cnt_probe sql c; cols_names_probe sql c ic])
    /\ Forall (is_fetch_task sql c ic kw (NPartitions_get E)) deploys
    /\ (List.length deploys <= Z.to_nat (NPartitions_get E))%nat
    /\ (joins = []
        \/ exists handles,
             joins = [EvMaterialize handles]
             /\ List.length deploys = Z.to_nat (NPartitions_get E)
             /\ List.length handles = Z.to_nat (NPartitions_get E)).
Proof.
  intros Hcon.
  unfold _read. rewrite Hcon. unfold pandas_read_sql.
  unfold bind at 1, call at 1.
  destruct (read_sql E tr (row_cnt_query sql) c None) as [e | df1].
  { exists [row_cnt_probe sql c], [], []. cbn.
    split; [reflexivity |]. split; [now left |]. split; [constructor |].
    split; [lia | now left]. }
  unfold bind at 1, call at 1.
  destruct (read_sql E _ (cols_names_query sql) c ic) as [e | df2].
  { exists [row_cnt_probe sql c; cols_names_probe sql c ic], [], []. cbn.
    rewrite <- app_assoc.
    split; [reflexivity |]. split; [now right |]. split; [constructor |].
    split; [lia | now left]. }
  unfold compute_limit.
  destruct (NPartitions_get E =? 0).
  { exists [row_cnt_probe sql c; cols_names_probe sql c ic], [], [].
    destruct (squeeze E df1 =? 0); cbn; rewrite <- app_assoc;
      (split; [reflexivity |]); (split; [now right |]);
      (split; [constructor |]); (split; [lia | now left]). }
  unfold bind at 1, ret at 1.
  unfold dispatch, bind at 1.
  destruct (for_each_dispatch_phases E sql c ic kw (NPartitions_get E)
              (Py.ceil_truediv (squeeze E df1) (NPartitions_get E))
              (Py.range (NPartitions_get E)) no_ids
              ((tr ++ [EvReadSql (row_cnt_query sql) c None])
                 ++ [EvReadSql (cols_names_query sql) c ic]))
    as (deploys & Htr & Hfetch & Hmax & Hret).
  rewrite PyFacts.range_length in Hmax.
  destruct (for_each _ _ _ _) as [[ids | e] tr'] eqn:Hloop;
    cbn [fst snd] in *; subst tr'.
  - destruct (Hret ids eq_refl) as [Hdeploys Hids].
    rewrite PyFacts.range_length in *. cbn in Hids.
    exists [row_cnt_probe sql c; cols_names_probe sql c ic], deploys,
      [EvMaterialize (index_ids ids)].
    split.
    + pose proof (reconcile_trace E ic (index_ids ids)
                    (((tr ++ [EvReadSql (row_cnt_query sql) c None])
                        ++ [EvReadSql (cols_names_query sql) c ic])
                       ++ deploys)) as Hrec.
      unfold bind.
      destruct (reconcile E ic (index_ids ids) _) as [[new_index | e] tr''];
        cbn [snd] in *; subst tr''; unfold ret; cbn [snd];
        rewrite <- !app_assoc; reflexivity.
    + split; [now right |]. split; [exact Hfetch |].
      split; [exact Hmax |].
      right. exists (index_ids ids). auto.
  - exists [row_cnt_probe sql c; cols_names_probe sql c ic], deploys, [].
    cbn [snd]. rewrite app_nil_r, <- !app_assoc.
    split; [reflexivity |]. split; [now right |]. split; [exact Hfetch |].
    split; [exact Hmax | now left].
Qed.

Lemma read_calls_in_phases_witness :
  exists probes deploys joins,
    snd (Scenario.run
           (_read (Scenario.env 3 (Scenario.table 10 ["a"; "b"])
                     [inr (MLen 4); inl "fetch failed"; inr (MLen 2)])
                  "t" (ConPg Scenario.tcp_info) (Some (Col "id")) []))
    = [] ++ probes ++ deploys ++ joins
    /\ (probes
        = [row_cnt_probe "t" "postgresql+psycopg2://u:p@pg.local:5432/db"]
        \/ probes
           = [row_cnt_probe "t" "postgresql+psycopg2://u:p@pg.local:5432/db";
              cols_names_probe "t"
                "postgresql+psycopg2://u:p@pg.local:5432/db"
                (Some (Col "id"))])
    /\ Forall (is_fetch_task "t" "postgresql+psycopg2://u:p@pg.local:5432/db"
                 (Some (Col "id")) [] 3) deploys
    /\ (List.length deploys <= 3)%nat
    /\ (joins = []
        \/ exists handles,
             joins = [EvMaterialize handles]
             /\ List.length deploys = 3%nat
             /\ List.length handles = 3%nat).
Proof.
  exact (read_calls_in_phases
           (Scenario.env 3 (Scenario.table 10 ["a"; "b"])
              [inr (MLen 4); inl "fetch failed"; inr (MLen 2)])
           "t" (ConPg Scenario.tcp_info) (Some (Col "id")) [] []
           "postgresql+psycopg2://u:p@pg.local:5432/db" eq_refl).
Defined.

(** ** The assembled frame *)

(** X8.  In a call that gets through dispatch and whose index is
    reconciled, if every task returned its [P + 2] handles then the
    returned frame holds a [P] by [P] grid of data blocks, one row per
    partition, and its labels were synchronized once, along axis 0. *)
Theorem partition_grid_shape
    {Handle Val KwVal DataFrame Columns SW ExtErr : Type}
    (E : Env Handle Val KwVal DataFrame Columns SW ExtErr)
    sql con ic kw (tr : Trace Handle KwVal) c df1 df2 idx new_index tr' :
  reaches_reconcile E sql con ic kw tr c df1 df2 idx ->
  reconcile E ic idx (dispatched_trace E tr sql c ic kw (squeeze E df1))
  = (Returned new_index, tr') ->
  Forall (fun hs => Z.of_nat (List.length hs) = NPartitions_get E + 2)
    (deployed_sets E tr sql c ic kw (squeeze E df1)) ->
  exists frame,
    _read E sql con ic kw tr = (Returned (query_compiler_cls frame), tr')
    /\ Z.of_nat (List.length (frame_partitions frame)) = NPartitions_get E
    /\ Forall (fun row => Z.of_nat (List.length row) = NPartitions_get E)
         (frame_partitions frame)
    /\ frame_synchronized frame = [0].
Proof.
  intros Hreach Hrec Hsets.
  rewrite (read_reaches_reconcile E _ _ _ _ _ _ _ _ _ Hreach), Hrec.
  destruct Hreach as (_ & _ & _ & HP & _).
  eexists. split; [reflexivity |].
  cbn [frame_partitions frame_synchronized synchronize_labels frame_cls].
  split; [| split; [| reflexivity]].
  - rewrite length_map, deployed_sets_length. lia.
  - apply Forall_map.
    eapply Forall_impl; [| exact Hsets].
    intros hs Hhs. cbn beta in Hhs.
    now apply (handle_positions hs (NPartitions_get E) ltac:(lia)).
Qed.

Lemma partition_grid_shape_witness :
  exists frame,
    Scenario.run
      (_read (Scenario.env 3 (Scenario.table 10 ["a"; "b"])
                [inr (MLen 4); inr (MLen 4); inr (MLen 2)])
             "t" (ConStr "sqlite:///db") None [])
    = (Returned (query_compiler_cls frame),
       dispatched_trace
         (Scenario.env 3 (Scenario.table 10 ["a"; "b"])
            [inr (MLen 4); inr (MLen 4); inr (MLen 2)])
         [] "t" "sqlite:///db" None [] 10
       ++ [EvMaterialize [(0%nat, 3%nat); (1%nat, 3%nat); (2%nat, 3%nat)]])
    /\ Z.of_nat (List.length (frame_partitions frame)) = 3
    /\ Forall (fun row => Z.of_nat (List.length row) = 3)
         (frame_partitions frame)
    /\ frame_synchronized frame = [0].
Proof.
  apply (partition_grid_shape
           (Scenario.env 3 (Scenario.table 10 ["a"; "b"])
              [inr (MLen 4); inr (MLen 4); inr (MLen 2)])
           "t" (ConStr "sqlite:///db") None [] [] "sqlite:///db"
           (10, ["count"]) (0, ["a"; "b"])
           [(0%nat, 3%nat); (1%nat, 3%nat); (2%nat, 3%nat)]
           (RangeIndex 10)).
  - unfold reaches_reconcile.
    repeat split; try reflexivity; try discriminate.
    vm_compute. repeat constructor.
  - reflexivity.
  - vm_compute. repeat constructor.
Defined.

Lemma Forall2_nth_error {A B} (R : A -> B -> Prop) (l1 : list A)
    (l2 : list B) :
  Forall2 R l1 l2 ->
  forall k a, nth_error l1 k = Some a ->
              exists b, nth_error l2 k = Some b /\ R a b.
Proof.
  induction 1 as [| x y l1 l2 Hxy _ IH]; intros k a Hk.
  - destruct k; discriminate.
  - destruct k as [| k]; cbn in *.
    + injection Hk as <-. eauto.
    + now apply IH.
Qed.

(** X9.  When no keyword clashes and every handle set has an index handle,
    the dispatch loop succeeds having deployed the plan's tasks in plan
    order, and it keeps the handles by partition: the [k]-th row of
    [partition_ids] wraps all but the last two handles of the [k]-th task's
    handle set, and the [k]-th element of [index_ids] is that set's
    second-to-last handle. *)
Theorem dispatch_keeps_partition_order
    {Handle Val KwVal DataFrame Columns SW ExtErr : Type}
    (E : Env Handle Val KwVal DataFrame Columns SW ExtErr)
    sql c ic kw row_cnt (tr : Trace Handle KwVal) idx :
  keyword_clash kw = false ->
  index_handles_of
    (handle_sets E sql c ic kw (NPartitions_get E) tr
       (plan row_cnt (NPartitions_get E))) idx ->
  exists ids,
    dispatch E sql c ic kw (NPartitions_get E)
      (Py.ceil_truediv row_cnt (NPartitions_get E)) tr
    = (Returned ids,
       tr ++ map (deploy_event sql c ic kw (NPartitions_get E))
               (plan row_cnt (NPartitions_get E)))
    /\ List.length (index_ids ids) = List.length (partition_ids ids)
    /\ (forall k hs,
          nth_error
            (handle_sets E sql c ic kw (NPartitions_get E) tr
               (plan row_cnt (NPartitions_get E))) k = Some hs ->
          nth_error (partition_ids ids) k = Some (data_row hs)
          /\ nth_error (index_ids ids) k = Py.index_neg2 hs).
Proof.
  intros Hkw Hidx.
  rewrite (dispatch_run E sql c ic kw row_cnt tr idx Hkw Hidx).
  eexists. split; [reflexivity |].
  cbn [partition_ids index_ids].
  split.
  - rewrite length_map. exact (index_handles_length _ _ Hidx).
  - intros k hs Hk. split.
    + now rewrite nth_error_map, Hk.
    + destruct (Forall2_nth_error _ _ _ Hidx k hs Hk) as (h & Hh & Hneg2).
      now rewrite Hh, Hneg2.
Qed.

Lemma dispatch_keeps_partition_order_witness :
  exists ids,
    Scenario.run
      (dispatch (Scenario.env 2 (Scenario.table 5 ["a"; "b"]) [])
         "t" "sqlite:///db" None [] 2 (Py.ceil_truediv 5 2))
    = (Returned ids,
       [] ++ map (deploy_event "t" "sqlite:///db" None [] 2) (plan 5 2))
    /\ partition_ids ids
       = [[frame_partition_cls (0, 0); frame_partition_cls (0, 1)];
          [frame_partition_cls (1, 0); frame_partition_cls (1, 1)]]%nat
    /\ index_ids ids = [(0, 2); (1, 2)]%nat.
Proof.
  destruct (dispatch_keeps_partition_order
              (Scenario.env 2 (Scenario.table 5 ["a"; "b"]) [])
              "t" "sqlite:///db" None [] 5 [] [(0, 2); (1, 2)]%nat)
    as (ids & Hrun & _ & _).
  - reflexivity.
  - vm_compute. repeat constructor.
  - exists ids. split; [exact Hrun |].
    vm_compute in Hrun. injection Hrun as <-. split; reflexivity.
Defined.
